(** * blenderseed: the render-stream decoder of [render.py]

    A shallow embedding of [RenderAppleseed.__render_project_file] and of the
    chunk decoders it calls, followed by the properties of the stream
    protocol, the window clipping and the progress accounting.

    Conventions of the embedding.
    - [os.read(fd, n)] on the child's stdout is a read on a [pipe]: the list of
      deliveries still to come.  One call returns at most one delivery, cut to
      [n] bytes; the empty pipe is end-of-stream and reads as [b""].
    - [self.test_break()] is an oracle: a list of pending answers followed by a
      final answer that is repeated for ever.
    - [struct.unpack] uses the native byte order; the stream is little-endian.
    - A 32-bit float is identified with its IEEE-754 bit pattern; the code only
      moves floats around.
    - [begin_result]/[layer.rect = ...]/[end_result] appends a [commit] to
      [sink]; [update_progress] appends the exact quotient to [progress].
    - [while] loops take fuel; [Spin] is a loop that did not finish. *)

From Stdlib Require Import Strings.String.
From Stdlib Require Import ZArith List Lia Bool QArith Sorted.
From Stdlib Require Import Strings.Byte.
Import ListNotations.
Local Open Scope Z_scope.

(** ** Bytes and [struct.unpack] *)

Definition byte_val (b : byte) : Z := Z.of_N (Byte.to_N b).

Definition byte_of_Z (z : Z) : byte :=
  match Byte.of_N (Z.to_N (z mod 256)) with
  | Some b => b
  | None => x00
  end.

(** One ["I"] field: four bytes, least significant first. *)
Definition le32 (b0 b1 b2 b3 : byte) : Z :=
  byte_val b0 + 256 * (byte_val b1 + 256 * (byte_val b2 + 256 * byte_val b3)).

(** What the producer writes for an unsigned 32-bit value. *)
Definition encode_u32 (v : Z) : list byte :=
  [byte_of_Z v; byte_of_Z (v / 256); byte_of_Z (v / 65536); byte_of_Z (v / 16777216)].

Definition encode_u32s (vs : list Z) : list byte := flat_map encode_u32 vs.

(** [struct.unpack("I" * n, data)]: [None] is [struct.error], raised when
    [data] is not exactly [4 * n] bytes long. *)
Fixpoint unpack_I (n : nat) (data : list byte) : option (list Z) :=
  match n, data with
  | O, [] => Some []
  | S n', b0 :: b1 :: b2 :: b3 :: rest =>
      option_map (cons (le32 b0 b1 b2 b3)) (unpack_I n' rest)
  | _, _ => None
  end.

(** [array.array('f').fromstring(data)]: [None] is the [ValueError] raised when
    the length is not a multiple of the item size. *)
Fixpoint fromstring (data : list byte) : option (list Z) :=
  match data with
  | [] => Some []
  | b0 :: b1 :: b2 :: b3 :: rest => option_map (cons (le32 b0 b1 b2 b3)) (fromstring rest)
  | _ => None
  end.

(** ** Python ranges and slices *)

(** [range(a, b)] *)
Definition zrange (a b : Z) : list Z :=
  map (fun i => a + Z.of_nat i) (seq 0 (Z.to_nat (b - a))).

(** [range(n - 1, -1, -1)] *)
Definition zrange_down (n : Z) : list Z := rev (zrange 0 n).

Definition slice_index (i len : Z) : Z :=
  if i <? 0 then Z.max 0 (i + len) else Z.min i len.

(** [l[a:b]] *)
Definition slice {A : Type} (l : list A) (a b : Z) : list A :=
  let len := Z.of_nat (length l) in
  let a' := slice_index a len in
  let b' := slice_index b len in
  firstn (Z.to_nat (b' - a')) (skipn (Z.to_nat a') l).

(** ** The world the render loop runs in *)

(** One [begin_result(x, y, w, h)] ... [end_result] with its [layer.rect]. *)
Record commit : Type := Commit {
  cx : Z;
  cy : Z;
  cw : Z;
  ch : Z;
  rect : list (list Z)
}.

Record oracle : Type := Oracle {
  pending : list bool;
  final : bool
}.

Record world : Type := World {
  pipe : list (list byte);
  brk : oracle;
  rendered_pixels : Z;
  total_pixels : Z;
  sink : list commit;
  progress : list Q;
  killed : bool
}.

Definition set_pipe (p : list (list byte)) (w : world) : world :=
  World p (brk w) (rendered_pixels w) (total_pixels w) (sink w) (progress w) (killed w).

Definition set_brk (o : oracle) (w : world) : world :=
  World (pipe w) o (rendered_pixels w) (total_pixels w) (sink w) (progress w) (killed w).

Definition set_rendered_pixels (n : Z) (w : world) : world :=
  World (pipe w) (brk w) n (total_pixels w) (sink w) (progress w) (killed w).

Definition set_total_pixels (n : Z) (w : world) : world :=
  World (pipe w) (brk w) (rendered_pixels w) n (sink w) (progress w) (killed w).

Definition add_commit (c : commit) (w : world) : world :=
  World (pipe w) (brk w) (rendered_pixels w) (total_pixels w) (sink w ++ [c]) (progress w)
        (killed w).

Definition add_progress (q : Q) (w : world) : world :=
  World (pipe w) (brk w) (rendered_pixels w) (total_pixels w) (sink w) (progress w ++ [q])
        (killed w).

Definition set_killed (w : world) : world :=
  World (pipe w) (brk w) (rendered_pixels w) (total_pixels w) (sink w) (progress w) true.

(** ** Exceptions, divergence and state *)

Inductive exn : Type := StructError | ValueError | ZeroDivisionError.

Inductive outcome (A : Type) : Type :=
| Ok (a : A) (w : world)
| Raise (e : exn) (w : world)
| Spin.

Arguments Ok {A} a w.
Arguments Raise {A} e w.
Arguments Spin {A}.

Definition M (A : Type) : Type := world -> outcome A.

Definition ret {A : Type} (a : A) : M A := fun w => Ok a w.

Definition bind {A B : Type} (m : M A) (k : A -> M B) : M B :=
  fun w =>
    match m w with
    | Ok a w' => k a w'
    | Raise e w' => Raise e w'
    | Spin => Spin
    end.

Definition raise {A : Type} (e : exn) : M A := fun w => Raise e w.

Definition spin {A : Type} : M A := fun _ => Spin.

Declare Scope py_scope.
Delimit Scope py_scope with py.
Notation "x <- m ;; k" := (bind m (fun x => k))
  (at level 61, m at next level, right associativity) : py_scope.
Notation "m ;;; k" := (bind m (fun _ => k))
  (at level 61, right associativity) : py_scope.
Local Open Scope py_scope.

Definition lift_option {A : Type} (e : exn) (o : option A) : M A :=
  match o with
  | Some a => ret a
  | None => raise e
  end.

(** ** The collaborators *)

(** What one [os.read(fd, n)] takes from the pipe. *)
Fixpoint pipe_read (n : Z) (p : list (list byte)) : list byte * list (list byte) :=
  match p with
  | [] => ([], [])
  | [] :: rest => pipe_read n rest
  | seg :: rest =>
      if Z.of_nat (length seg) <=? n then (seg, rest)
      else (firstn (Z.to_nat n) seg, skipn (Z.to_nat n) seg :: rest)
  end.

Definition os_read (n : Z) : M (list byte) :=
  fun w =>
    if n <=? 0 then Ok [] w
    else let (data, p) := pipe_read n (pipe w) in Ok data (set_pipe p w).

Definition ask (o : oracle) : bool * oracle :=
  match pending o with
  | [] => (final o, o)
  | b :: bs => (b, Oracle bs (final o))
  end.

Definition test_break : M bool :=
  fun w => let (b, o) := ask (brk w) in Ok b (set_brk o w).

Definition struct_unpack (n : nat) (data : list byte) : M (list Z) :=
  lift_option StructError (unpack_I n data).

Definition array_fromstring (data : list byte) : M (list Z) :=
  lift_option ValueError (fromstring data).

Definition item (l : list Z) (i : nat) : Z := nth i l 0.

(** [begin_result(x, y, w, h)], [layer.rect = pix], [end_result(result)]. *)
Definition emit (x y w h : Z) (pix : list (list Z)) : M unit :=
  fun wd => Ok tt (add_commit (Commit x y w h pix) wd).

(** [self.update_progress(self.rendered_pixels / self.total_pixels)] *)
Definition update_progress : M unit :=
  fun w =>
    if total_pixels w =? 0 then Raise ZeroDivisionError w
    else Ok tt (add_progress (inject_Z (rendered_pixels w) / inject_Z (total_pixels w))%Q w).

(** [self.rendered_pixels += n] *)
Definition add_rendered_pixels (n : Z) : M unit :=
  fun w => Ok tt (set_rendered_pixels (rendered_pixels w + n) w).

Definition process_kill : M unit := fun w => Ok tt (set_killed w).

(** ** The render window *)

Record window : Type := Window {
  min_x : Z;
  min_y : Z;
  max_x : Z;
  max_y : Z
}.

(** The window of a render without border. *)
Definition full_window (width height : Z) : window :=
  Window 0 0 (width - 1) (height - 1).

(** Lines 177-193: the counters at stream start. *)
Definition init_progress (win : window) (renderer_passes : Z) : M unit :=
  fun w =>
    Ok tt (set_total_pixels
             ((max_x win - min_x win + 1) * (max_y win - min_y win + 1) * renderer_passes)
             (set_rendered_pixels 0 w)).

(** "Ignore tiles completely outside the render window." *)
Definition outside_x (win : window) (tile_x tile_w : Z) : bool :=
  (tile_x >? max_x win) || (tile_x + tile_w - 1 <? min_x win).

Definition outside_y (win : window) (tile_y tile_h : Z) : bool :=
  (tile_y >? max_y win) || (tile_y + tile_h - 1 <? min_y win).

(** "Image-space coordinates of the intersection between the tile and the
    render window."  Both chunk decoders start with these lines (269-279 and
    320-330); [None] is the early [return True] of a tile outside the window. *)
Record intersection : Type := Intersection {
  ix0 : Z;
  iy0 : Z;
  ix1 : Z;
  iy1 : Z
}.

Definition intersect (win : window) (tile_x tile_y tile_w tile_h : Z) : option intersection :=
  if outside_x win tile_x tile_w then None
  else if outside_y win tile_y tile_h then None
  else
    Some (Intersection (Z.max tile_x (min_x win)) (Z.max tile_y (min_y win))
                       (Z.min (tile_x + tile_w - 1) (max_x win))
                       (Z.min (tile_y + tile_h - 1) (max_y win))).

(** "Number of rows and columns to skip in the input tile." *)
Definition skip_x (i : intersection) (tile_x : Z) : Z := ix0 i - tile_x.
Definition skip_y (i : intersection) (tile_y : Z) : Z := iy0 i - tile_y.
Definition take_x (i : intersection) : Z := ix1 i - ix0 i + 1.
Definition take_y (i : intersection) : Z := iy1 i - iy0 i + 1.

(** "Window-space coordinates of the intersection between the tile and the
    render window." *)
Definition x0 (win : window) (i : intersection) : Z := ix0 i - min_x win.
Definition x1 (win : window) (i : intersection) : Z := ix1 i - min_x win.
Definition y0 (win : window) (i : intersection) : Z := max_y win - iy1 i.
Definition y1 (win : window) (i : intersection) : Z := max_y win - iy0 i.

(** ** [__process_tile_data_chunk] *)

(** Lines 259-261: the payload loop. *)
Fixpoint read_tile_data (fuel : nat) (tile_size : Z) (tile_data : list byte) : M (list byte) :=
  match fuel with
  | O => spin
  | S fuel' =>
      if Z.of_nat (length tile_data) <? tile_size then
        b <- test_break ;;
        if b then ret tile_data
        else
          d <- os_read (tile_size - Z.of_nat (length tile_data)) ;;
          read_tile_data fuel' tile_size (tile_data ++ d)
      else ret tile_data
  end.

(** Lines 290-294: the rows taken from the tile, last row first. *)
Definition extract_pix (floats : list Z) (tile_w skipx skipy takex takey : Z)
  : list (list Z) :=
  flat_map
    (fun y =>
       let start_pix := (skipy + y) * tile_w + skipx in
       let end_pix := start_pix + takex in
       map (fun p => slice floats (p * 4) (p * 4 + 4)) (zrange start_pix end_pix))
    (zrange_down takey).

Definition process_tile_data_chunk (fuel : nat) (win : window) : M bool :=
  header_data <- os_read (5 * 4) ;;
  tile_header <- struct_unpack 5 header_data ;;
  let tile_x := item tile_header 0 in
  let tile_y := item tile_header 1 in
  let tile_w := item tile_header 2 in
  let tile_h := item tile_header 3 in
  let tile_c := item tile_header 4 in
  let tile_size := tile_w * tile_h * tile_c * 4 in
  tile_data <- read_tile_data fuel tile_size [] ;;
  b <- test_break ;;
  if b then ret false
  else
    match intersect win tile_x tile_y tile_w tile_h with
    | None => ret true
    | Some i =>
        floats <- array_fromstring tile_data ;;
        let pix :=
          extract_pix floats tile_w (skip_x i tile_x) (skip_y i tile_y) (take_x i) (take_y i) in
        emit (x0 win i) (y0 win i) (take_x i) (take_y i) pix ;;;
        add_rendered_pixels (take_x i * take_y i) ;;;
        update_progress ;;;
        ret true
    end.

(** ** [__process_tile_highlight_chunk] *)

Definition bracket_extent : Z := 5.

(** [[1.0, 1.0, 1.0, 1.0]]; 1.0 is [0x3F800000]. *)
Definition bracket_color : list Z := [1065353216; 1065353216; 1065353216; 1065353216].

Definition draw_hline (x y length : Z) (color : list Z) : M unit :=
  emit x y length 1 (repeat color (Z.to_nat length)).

Definition draw_vline (x y length : Z) (color : list Z) : M unit :=
  emit x y 1 length (repeat color (Z.to_nat length)).

(** Lines 338-360: the four corner brackets of the rectangle. *)
Definition bracket_width (rx0 rx1 : Z) : Z := Z.min bracket_extent (rx1 - rx0 + 1).
Definition bracket_height (ry0 ry1 : Z) : Z := Z.min bracket_extent (ry1 - ry0 + 1).

Definition draw_brackets (rx0 ry0 rx1 ry1 : Z) : M unit :=
  let bw := bracket_width rx0 rx1 in
  let bh := bracket_height ry0 ry1 in
  draw_hline rx0 ry1 bw bracket_color ;;;
  draw_vline rx0 (ry1 - bh + 1) bh bracket_color ;;;
  draw_hline (rx1 - bw + 1) ry1 bw bracket_color ;;;
  draw_vline rx1 (ry1 - bh + 1) bh bracket_color ;;;
  draw_hline rx0 ry0 bw bracket_color ;;;
  draw_vline rx0 ry0 bh bracket_color ;;;
  draw_hline (rx1 - bw + 1) ry0 bw bracket_color ;;;
  draw_vline rx1 ry0 bh bracket_color.

Definition process_tile_highlight_chunk (win : window) : M bool :=
  header_data <- os_read (4 * 4) ;;
  tile_header <- struct_unpack 4 header_data ;;
  let tile_x := item tile_header 0 in
  let tile_y := item tile_header 1 in
  let tile_w := item tile_header 2 in
  let tile_h := item tile_header 3 in
  match intersect win tile_x tile_y tile_w tile_h with
  | None => ret true
  | Some i =>
      draw_brackets (x0 win i) (y0 win i) (x1 win i) (y1 win i) ;;;
      ret true
  end.

(** ** [__render_project_file]: the loop on the child's stdout *)

(** Lines 213-235. *)
Fixpoint render_loop (fuel : nat) (win : window) : M unit :=
  match fuel with
  | O => spin
  | S fuel' =>
      b <- test_break ;;
      if b then ret tt
      else
        chunk_header_data <- os_read (2 * 4) ;;
        match chunk_header_data with
        | [] => ret tt
        | _ =>
            chunk_header <- struct_unpack 2 chunk_header_data ;;
            let chunk_type := item chunk_header 0 in
            let chunk_size := item chunk_header 1 in
            if chunk_type =? 1 then
              continue <- process_tile_data_chunk fuel' win ;;
              if continue then render_loop fuel' win else ret tt
            else if chunk_type =? 2 then
              continue <- process_tile_highlight_chunk win ;;
              if continue then render_loop fuel' win else ret tt
            else
              os_read chunk_size ;;;
              render_loop fuel' win
        end
  end.

(** Lines 177-238, from the counters to [process.kill()]. *)
Definition render_project_file (fuel : nat) (win : window) (renderer_passes : Z) : M unit :=
  init_progress win renderer_passes ;;;
  render_loop fuel win ;;;
  process_kill.

(** ** [__render_material_preview]: the choice of the material *)

(** Lines 95-117 and 138, up to the export of the preview project.  A scene
    object is what the lines read of it: its name, [is_visible(scene)],
    [hide_render] and the list [util.get_instance_materials] returns for it,
    where a [None] is an empty slot.  [ob_id] is the identity of the object,
    which is what a dictionary compares and hashes. *)
Section Preview.

Variable material : Type.

Record scene_object : Type := SceneObject {
  ob_id : nat;
  ob_name : string;
  ob_is_visible : bool;
  ob_hide_render : bool;
  ob_instance_materials : list (option material)
}.

(** The keys [objects_materials] is asked for: objects and, in the test of
    line 105, a name.  A string is never equal to an object. *)
Inductive pykey : Type :=
| KeyObject (o : scene_object)
| KeyStr (s : string).

Definition pykey_eqb (k1 k2 : pykey) : bool :=
  match k1, k2 with
  | KeyObject a, KeyObject b => Nat.eqb (ob_id a) (ob_id b)
  | KeyStr s, KeyStr t => String.eqb s t
  | _, _ => false
  end.

(** A dictionary in insertion order. *)
Definition pydict : Type := list (pykey * list material).

(** [k in d.keys()] *)
Definition dict_contains (k : pykey) (d : pydict) : bool :=
  existsb (pykey_eqb k) (map fst d).

(** [d[k] = v] *)
Fixpoint dict_set (k : pykey) (v : list material) (d : pydict) : pydict :=
  match d with
  | [] => [(k, v)]
  | (k', v') :: d' =>
      if pykey_eqb k k' then (k', v) :: d' else (k', v') :: dict_set k v d'
  end.

(** [d[k]]; [None] is [KeyError]. *)
Fixpoint dict_get (k : pykey) (d : pydict) : option (list material) :=
  match d with
  | [] => None
  | (k', v') :: d' => if pykey_eqb k k' then Some v' else dict_get k d'
  end.

Inductive pyerror : Type := KeyError | AttributeError.

(** Lines 104-107, for one [mat]. *)
Definition record_material (obj : scene_object) (objects_materials : pydict)
    (mat : option material) : pydict + pyerror :=
  match mat with
  | None => inl objects_materials
  | Some m =>
      let d :=
        if negb (dict_contains (KeyStr (ob_name obj)) objects_materials)
        then dict_set (KeyObject obj) [] objects_materials
        else objects_materials in
      match dict_get (KeyObject obj) d with
      | Some l => inl (dict_set (KeyObject obj) (l ++ [m]) d)
      | None => inr KeyError
      end
  end.

Fixpoint record_materials (obj : scene_object) (objects_materials : pydict)
    (mats : list (option material)) : pydict + pyerror :=
  match mats with
  | [] => inl objects_materials
  | mat :: mats' =>
      match record_material obj objects_materials mat with
      | inl d => record_materials obj d mats'
      | inr e => inr e
      end
  end.

(** Lines 101-107. *)
Fixpoint collect_materials (objects : list scene_object) (objects_materials : pydict)
  : pydict + pyerror :=
  match objects with
  | [] => inl objects_materials
  | obj :: objects' =>
      if ob_is_visible obj && negb (ob_hide_render obj) then
        match record_materials obj objects_materials (ob_instance_materials obj) with
        | inl d => collect_materials objects' d
        | inr e => inr e
        end
      else collect_materials objects' objects_materials
  end.

(** Line 110: the keys whose [name] starts with ['preview']. *)
Fixpoint preview_objects (keys : list pykey) : list pykey + pyerror :=
  match keys with
  | [] => inl []
  | KeyStr _ :: _ => inr AttributeError
  | KeyObject o :: keys' =>
      match preview_objects keys' with
      | inl l => inl (if prefix "preview" (ob_name o) then KeyObject o :: l else l)
      | inr e => inr e
      end
  end.

(** How the lines end: with an early [return], with [prev_mat] chosen, or with
    an exception. *)
Inductive selection : Type :=
| Returned
| Selected (prev_mat : material)
| Failed (e : pyerror).

Definition select_preview_material (width : Z) (objects : list scene_object) : selection :=
  if width <=? 96 then Returned
  else
    match collect_materials objects [] with
    | inr e => Failed e
    | inl objects_materials =>
        match preview_objects (map fst objects_materials) with
        | inr e => Failed e
        | inl [] => Returned
        | inl (o :: _) =>
            match dict_get o objects_materials with
            | None => Failed KeyError
            | Some [] => Returned
            | Some (prev_mat :: _) => Selected prev_mat
            end
        end
    end.

(** The last slot of an object that holds a material. *)
Fixpoint last_material (mats : list (option material)) : option material :=
  match mats with
  | [] => None
  | mat :: mats' =>
      match last_material mats' with
      | Some m => Some m
      | None => mat
      end
  end.

(** The objects the preview may show, and the object it shows. *)
Definition shown (obj : scene_object) : bool :=
  ob_is_visible obj && negb (ob_hide_render obj).

Definition candidate (obj : scene_object) : bool :=
  shown obj && prefix "preview" (ob_name obj) &&
  match last_material (ob_instance_materials obj) with Some _ => true | None => false end.

End Preview.

Arguments SceneObject {material}.
Arguments ob_id {material}.
Arguments ob_name {material}.
Arguments ob_is_visible {material}.
Arguments ob_hide_render {material}.
Arguments ob_instance_materials {material}.
Arguments KeyObject {material}.
Arguments KeyStr {material}.
Arguments pykey_eqb {material}.
Arguments dict_contains {material}.
Arguments dict_set {material}.
Arguments dict_get {material}.
Arguments record_material {material}.
Arguments record_materials {material}.
Arguments collect_materials {material}.
Arguments preview_objects {material}.
Arguments Returned {material}.
Arguments Selected {material}.
Arguments Failed {material}.
Arguments select_preview_material {material}.
Arguments last_material {material}.
Arguments shown {material}.
Arguments candidate {material}.

(** * Vocabulary of the statements *)

(** The values an ["I"] field can hold. *)
Definition u32 (v : Z) : Prop := 0 <= v < 4294967296.

(** Nobody cancels the render: [test_break()] answers [False] for ever. *)
Definition no_cancel (w : world) : Prop := brk w = Oracle [] false.

(** The floats of a payload; [[]] where [fromstring] raises. *)
Definition floats_of (data : list byte) : list Z :=
  match fromstring data with
  | Some floats => floats
  | None => []
  end.

(** The world after a tile was drawn: one more commit, [area] more pixels
    counted and the new fraction reported. *)
Definition drawn (c : commit) (area : Z) (w : world) : world :=
  World (pipe w) (brk w) (rendered_pixels w + area) (total_pixels w) (sink w ++ [c])
        (progress w ++ [(inject_Z (rendered_pixels w + area) / inject_Z (total_pixels w))%Q])
        (killed w).

(** The commit of a tile-data chunk whose tile meets the window in [i]. *)
Definition tile_commit (win : window) (tile_x tile_y tile_w : Z) (i : intersection)
    (floats : list Z) : commit :=
  Commit (x0 win i) (y0 win i) (take_x i) (take_y i)
         (extract_pix floats tile_w (skip_x i tile_x) (skip_y i tile_y) (take_x i) (take_y i)).

(** The eight commits of a highlight, in the order they are drawn. *)
Definition bracket_commits (rx0 ry0 rx1 ry1 : Z) : list commit :=
  let bw := bracket_width rx0 rx1 in
  let bh := bracket_height ry0 ry1 in
  let h := repeat bracket_color (Z.to_nat bw) in
  let v := repeat bracket_color (Z.to_nat bh) in
  [ Commit rx0 ry1 bw 1 h; Commit rx0 (ry1 - bh + 1) 1 bh v;
    Commit (rx1 - bw + 1) ry1 bw 1 h; Commit rx1 (ry1 - bh + 1) 1 bh v;
    Commit rx0 ry0 bw 1 h; Commit rx0 ry0 1 bh v;
    Commit (rx1 - bw + 1) ry0 bw 1 h; Commit rx1 ry0 1 bh v ].

Definition add_commits (cs : list commit) (w : world) : world :=
  World (pipe w) (brk w) (rendered_pixels w) (total_pixels w) (sink w ++ cs) (progress w)
        (killed w).

(** The outcome of a tile-data chunk once its payload [data] was read and the
    pipe is left at [p']. *)
Definition tile_outcome (win : window) (w : world) (p' : list (list byte)) (data : list byte)
    (tile_x tile_y tile_w tile_h : Z) : outcome bool :=
  match intersect win tile_x tile_y tile_w tile_h with
  | None => Ok true (set_pipe p' w)
  | Some i =>
      if total_pixels w =? 0 then
        Raise ZeroDivisionError
          (set_rendered_pixels (rendered_pixels w + take_x i * take_y i)
             (add_commit (tile_commit win tile_x tile_y tile_w i (floats_of data))
                (set_pipe p' w)))
      else
        Ok true (drawn (tile_commit win tile_x tile_y tile_w i (floats_of data))
                       (take_x i * take_y i) (set_pipe p' w))
  end.

(** The segment is one pixel thick and [len] pixels long. *)
Definition horizontal (len : Z) (c : commit) : Prop := cw c = len /\ ch c = 1.
Definition vertical (len : Z) (c : commit) : Prop := cw c = 1 /\ ch c = len.

(** Every pixel of the segment is the bracket color. *)
Definition solid (c : commit) : Prop :=
  length (rect c) = Z.to_nat (cw c * ch c) /\ Forall (eq bracket_color) (rect c).

(** A world at stream start where nobody cancels. *)
Definition quiet (p : list (list byte)) : world :=
  World p (Oracle [] false) 0 0 [] [] false.

Definition window_4x4 : window := full_window 4 4.

(** A 1x1 RGBA tile at [x = 10], outside [window_4x4]; its payload comes in
    two deliveries. *)
Definition outside_data_stream : list (list byte) :=
  [ encode_u32s [1; 36]; encode_u32s [10; 0; 1; 1; 4];
    encode_u32s [1; 2]; encode_u32s [3; 4] ].

(** A highlight of the same tile. *)
Definition outside_highlight_stream : list (list byte) :=
  [ encode_u32s [2; 16]; encode_u32s [10; 0; 1; 1] ].

(** The chunk of an RGBA 1x1 tile outside [window_4x4]; the last delivery of
    its payload also carries the header of the next chunk. *)
Definition straddling_stream : list (list byte) :=
  [ encode_u32s [10; 0; 1; 1; 4]; encode_u32s [1; 2; 3];
    encode_u32s [4] ++ encode_u32s [2; 16]; encode_u32s [0; 0; 3; 3] ].

(** A tile-data chunk that declares a 4x4 tile of one channel, 64 bytes, and
    closes after 32. *)
Definition truncated_stream : list (list byte) :=
  [ encode_u32s [1; 84]; encode_u32s [0; 0; 4; 4; 1];
    encode_u32s [1; 2; 3; 4; 5; 6; 7; 8] ].

(** The highlight of a 3x3 tile, and the same bytes with the chunk header
    delivered in two pieces. *)
Definition whole_header_stream : list (list byte) :=
  [ encode_u32s [2; 16]; encode_u32s [0; 0; 3; 3] ].

Definition split_header_stream : list (list byte) :=
  [ firstn 5 (encode_u32s [2; 16]); skipn 5 (encode_u32s [2; 16]); encode_u32s [0; 0; 3; 3] ].

(** An unknown chunk of type 99 and size 12 before the highlight, and the same
    bytes with the 12 bytes delivered in two pieces. *)
Definition unknown_whole_stream : list (list byte) :=
  [ encode_u32s [99; 12]; encode_u32s [7; 7; 7];
    encode_u32s [2; 16]; encode_u32s [0; 0; 3; 3] ].

Definition unknown_split_stream : list (list byte) :=
  [ encode_u32s [99; 12]; firstn 6 (encode_u32s [7; 7; 7]); skipn 6 (encode_u32s [7; 7; 7]);
    encode_u32s [2; 16]; encode_u32s [0; 0; 3; 3] ].

(** [w] after a run that ended in [o]; [None] when the run did not end. *)
Definition final_world {A : Type} (o : outcome A) : option world :=
  match o with
  | Ok _ w => Some w
  | Raise _ w => Some w
  | Spin => None
  end.

(** The tile data of the protocol are row-major with the channels of a pixel
    interleaved: the pixel at [row], [col] of a tile [tile_w] wide. *)
Definition source_pixel (floats : list Z) (tile_w channels row col : Z) : list Z :=
  slice floats ((row * tile_w + col) * channels) ((row * tile_w + col) * channels + channels).

Definition source_row (floats : list Z) (tile_w channels row : Z) : list (list Z) :=
  map (source_pixel floats tile_w channels row) (zrange 0 tile_w).

(** The rows of the tile, last row first. *)
Definition rows_reversed (floats : list Z) (tile_w tile_h channels : Z) : list (list Z) :=
  flat_map (fun r => source_row floats tile_w channels (tile_h - 1 - r)) (zrange 0 tile_h).

(** 10.0 and 20.0 *)
Definition f10 : Z := 1092616192.
Definition f20 : Z := 1101004800.

(** A 1x2 tile of one channel with the values 10 (row 0) and 20 (row 1). *)
Definition one_channel_stream : list (list byte) :=
  [ encode_u32s [1; 28]; encode_u32s [0; 0; 1; 2; 1]; encode_u32s [f10; f20] ].

(** A 1x2 RGBA tile with the pixels (10, 10, 10, 10) and (20, 20, 20, 20). *)
Definition four_channel_stream : list (list byte) :=
  [ encode_u32s [1; 52]; encode_u32s [0; 0; 1; 2; 4];
    encode_u32s [f10; f10; f10; f10; f20; f20; f20; f20] ].

(** A tile-data chunk on the wire: the [size] field of its chunk header, the
    five fields of its tile header and the deliveries of its payload. *)
Record tile_chunk : Type := TileChunk {
  t_size : Z;
  t_x : Z;
  t_y : Z;
  t_w : Z;
  t_h : Z;
  t_c : Z;
  t_payload : list (list byte)
}.

Definition well_formed (t : tile_chunk) : Prop :=
  Forall u32 [t_size t; t_x t; t_y t; t_w t; t_h t; t_c t] /\
  Forall (fun s => s <> []) (t_payload t) /\
  Z.of_nat (length (concat (t_payload t))) = t_w t * t_h t * t_c t * 4.

Definition deliveries (t : tile_chunk) : list (list byte) :=
  encode_u32s [1; t_size t] :: encode_u32s [t_x t; t_y t; t_w t; t_h t; t_c t] :: t_payload t.

Definition stream_of (ts : list tile_chunk) : list (list byte) := flat_map deliveries ts.

(** The tile lies inside the render window. *)
Definition inside (win : window) (t : tile_chunk) : Prop :=
  min_x win <= t_x t /\ min_y win <= t_y t /\
  t_x t + t_w t - 1 <= max_x win /\ t_y t + t_h t - 1 <= max_y win.

(** The pixel [(x, y)] of the image belongs to the tile. *)
Definition covers (t : tile_chunk) (x y : Z) : Prop :=
  t_x t <= x < t_x t + t_w t /\ t_y t <= y < t_y t + t_h t.

Definition overlap (t t' : tile_chunk) : Prop := exists x y, covers t x y /\ covers t' x y.

Fixpoint non_overlapping (ts : list tile_chunk) : Prop :=
  match ts with
  | [] => True
  | t :: ts' => Forall (fun t' => ~ overlap t t') ts' /\ non_overlapping ts'
  end.

Definition area (t : tile_chunk) : Z := t_w t * t_h t.

Definition sum_areas (ts : list tile_chunk) : Z := fold_right (fun t a => area t + a) 0 ts.

(** The pixels of a rectangle, and of a list of tiles. *)
Definition rect_pixels (x y w h : Z) : list (Z * Z) :=
  list_prod (zrange x (x + w)) (zrange y (y + h)).

Definition tile_pixels (t : tile_chunk) : list (Z * Z) :=
  rect_pixels (t_x t) (t_y t) (t_w t) (t_h t).

(** [rendered_pixels / total_pixels] *)
Definition fraction (total rendered : Z) : Q := (inject_Z rendered / inject_Z total)%Q.

(** Two 2x2 RGBA tiles side by side in [window_4x4]; the payload of the second
    comes in two deliveries. *)
Definition zeros (n : nat) : list byte := encode_u32s (repeat 0 n).

Definition two_tiles : list tile_chunk :=
  [ TileChunk 84 0 0 2 2 4 [zeros 16];
    TileChunk 84 2 0 2 2 4 [zeros 6; zeros 10] ].

(** ** Outcomes and what a run may change *)

(** [Q] after a return, [E] after an exception, [S] if the run does not end. *)
Definition post {A : Type} (o : outcome A) (Q : A -> world -> Prop)
    (E : exn -> world -> Prop) (S : Prop) : Prop :=
  match o with
  | Ok a w' => Q a w'
  | Raise e w' => E e w'
  | Spin => S
  end.

(** [w'] comes after [w] in a render: the total and the kill flag are the
    same, the oracle has the same final answer and no more pending ones, bytes
    were only taken from the front of the pipe, commits and fractions were only
    appended, and with a window that is not empty the counter did not go down. *)
Definition after (win : window) (w w' : world) : Prop :=
  total_pixels w' = total_pixels w /\
  killed w' = killed w /\
  final (brk w') = final (brk w) /\
  (length (pending (brk w')) <= length (pending (brk w)))%nat /\
  (exists consumed, concat (pipe w) = consumed ++ concat (pipe w')) /\
  (exists cs, sink w' = sink w ++ cs) /\
  (exists qs, progress w' = progress w ++ qs) /\
  (min_x win <= max_x win -> min_y win <= max_y win ->
   rendered_pixels w <= rendered_pixels w').

(** The render is cancelled sooner or later: fewer than [fuel] polls are
    answered before the final answer, which is [True]. *)
Definition cancelled_within (fuel : nat) (w : world) : Prop :=
  final (brk w) = true /\ (length (pending (brk w)) < fuel)%nat.


(** Nothing was drawn, counted, reported or killed between [w] and [w']. *)
Definition silent (w w' : world) : Prop :=
  sink w' = sink w /\ progress w' = progress w /\
  rendered_pixels w' = rendered_pixels w /\ total_pixels w' = total_pixels w /\
  killed w' = killed w.

(** Nothing was counted or reported yet, or the last reported fraction is
    [rendered_pixels / total_pixels] as they are now. *)
Definition up_to_date (w : world) : Prop :=
  (progress w = [] /\ rendered_pixels w = 0) \/
  exists qs, progress w = qs ++ [fraction (total_pixels w) (rendered_pixels w)].

(** Every pixel of the render window belongs to a tile of [ts]. *)
Definition covering (win : window) (ts : list tile_chunk) : Prop :=
  forall x y, min_x win <= x <= max_x win -> min_y win <= y <= max_y win ->
              exists t, In t ts /\ covers t x y.

(** The four quarters of [window_4x4] as 2x2 RGBA tiles. *)
Definition four_tiles : list tile_chunk :=
  [ TileChunk 84 0 0 2 2 4 [zeros 16]; TileChunk 84 2 0 2 2 4 [zeros 16];
    TileChunk 84 0 2 2 2 4 [zeros 16]; TileChunk 84 2 2 2 2 4 [zeros 16] ].

(** What [objects_materials] holds after the loop: for every shown object with
    a material, the object and its last material. *)
Definition entries {material : Type} (objects : list (scene_object material))
  : list (pykey material * list material) :=
  flat_map (fun o => if shown o then
                       match last_material (ob_instance_materials o) with
                       | Some m => [(KeyObject o, [m])]
                       | None => []
                       end
                     else []) objects.

(** The keys of the dictionary are objects: the name asked for at line 105 is
    never among them. *)
Definition objects_only {material : Type} (d : pydict material) : Prop :=
  Forall (fun kv => exists o, fst kv = KeyObject o) d.

(** A preview scene: a lamp, a hidden preview object, the preview sphere with
    three slots, the second empty, and the floor. *)
Definition preview_scene : list (scene_object nat) :=
  [ SceneObject 0%nat "lamp" true false [Some 7%nat];
    SceneObject 1%nat "preview_hidden" true true [Some 8%nat];
    SceneObject 2%nat "preview_sphere" true false [Some 1%nat; None; Some 2%nat];
    SceneObject 3%nat "preview_floor" true false [Some 3%nat] ].

(** * Properties *)

(** ** Bytes *)

Lemma byte_val_range (b : byte) : 0 <= byte_val b < 256.
Proof.
  unfold byte_val. pose proof (Byte.to_N_bounded b). lia.
Qed.

Lemma byte_val_of_Z (z : Z) : byte_val (byte_of_Z z) = z mod 256.
Proof.
  unfold byte_val, byte_of_Z.
  assert (Hr : 0 <= z mod 256 < 256) by (apply Z.mod_pos_bound; lia).
  pose proof (Byte.to_of_N_option_map (Z.to_N (z mod 256))) as Hm.
  replace (Z.to_N (z mod 256) <=? 255)%N with true in Hm
    by (symmetry; apply N.leb_le; lia).
  destruct (Byte.of_N (Z.to_N (z mod 256))) as [b|]; simpl in Hm; [|discriminate].
  injection Hm as ->. lia.
Qed.

Lemma le32_range (b0 b1 b2 b3 : byte) : 0 <= le32 b0 b1 b2 b3 < 4294967296.
Proof.
  unfold le32.
  pose proof (byte_val_range b0). pose proof (byte_val_range b1).
  pose proof (byte_val_range b2). pose proof (byte_val_range b3). lia.
Qed.

Lemma unpack_I_encode_u32 (v : Z) (n : nat) (rest : list byte) :
  u32 v ->
  unpack_I (S n) (encode_u32 v ++ rest) = option_map (cons v) (unpack_I n rest).
Proof.
  intros Hv. unfold encode_u32. cbn [app unpack_I]. f_equal. f_equal.
  unfold le32. rewrite !byte_val_of_Z. unfold u32 in Hv.
  pose proof (Z.div_mod v 256 ltac:(lia)).
  pose proof (Z.div_mod (v / 256) 256 ltac:(lia)).
  pose proof (Z.div_mod (v / 256 / 256) 256 ltac:(lia)).
  change 65536 with (256 * 256). change 16777216 with (256 * 256 * 256).
  rewrite <- !Z.div_div by lia.
  assert (v / 256 / 256 / 256 < 256).
  { apply Z.div_lt_upper_bound; [lia|].
    apply Z.div_lt_upper_bound; [lia|].
    apply Z.div_lt_upper_bound; lia. }
  assert (0 <= v / 256 / 256 / 256).
  { repeat apply Z.div_pos; lia. }
  rewrite (Z.mod_small (v / 256 / 256 / 256)) by lia. lia.
Qed.

Lemma unpack_I_encode (vs : list Z) :
  Forall u32 vs -> unpack_I (length vs) (encode_u32s vs) = Some vs.
Proof.
  induction 1 as [|v vs Hv _ IH]; [reflexivity|].
  unfold encode_u32s in *. cbn [flat_map length].
  rewrite unpack_I_encode_u32 by assumption. rewrite IH. reflexivity.
Qed.

Lemma unpack_I_some (n : nat) : forall (data : list byte) (vs : list Z),
  unpack_I n data = Some vs ->
  length vs = n /\ length data = (4 * n)%nat /\ Forall u32 vs.
Proof.
  induction n as [|n IH]; intros data vs H.
  - destruct data; [|discriminate]. injection H as <-. repeat split. constructor.
  - destruct data as [|b0 [|b1 [|b2 [|b3 rest]]]]; try discriminate.
    cbn [unpack_I] in H.
    destruct (unpack_I n rest) as [vs'|] eqn:E; [|discriminate].
    injection H as <-. destruct (IH _ _ E) as (Hl & Hd & Hr).
    cbn [length]. repeat split; [lia | lia |].
    constructor; [apply le32_range | assumption].
Qed.

Lemma length_encode_u32s (vs : list Z) : length (encode_u32s vs) = (4 * length vs)%nat.
Proof.
  induction vs as [|v vs IH]; [reflexivity|].
  unfold encode_u32s in *. cbn [flat_map]. rewrite length_app, IH. cbn [encode_u32 length]. lia.
Qed.

Lemma fromstring_total : forall (n : nat) (data : list byte),
  length data = (4 * n)%nat ->
  exists floats, fromstring data = Some floats /\ length floats = n.
Proof.
  induction n as [|n IH]; intros data H.
  - destruct data; [|discriminate]. exists []. split; reflexivity.
  - destruct data as [|b0 [|b1 [|b2 [|b3 rest]]]]; cbn [length] in H; try lia.
    destruct (IH rest ltac:(lia)) as (fl & Hf & Hl).
    exists (le32 b0 b1 b2 b3 :: fl). cbn [fromstring]. rewrite Hf. split; [reflexivity|].
    cbn [length]. lia.
Qed.

(** ** Ranges *)

Lemma zrange_length (a b : Z) : length (zrange a b) = Z.to_nat (b - a).
Proof. unfold zrange. rewrite length_map, length_seq. reflexivity. Qed.

Lemma zrange_In (a b x : Z) : In x (zrange a b) <-> a <= x < b.
Proof.
  unfold zrange. rewrite in_map_iff. split.
  - intros (i & <- & Hi). apply in_seq in Hi. lia.
  - intros H. exists (Z.to_nat (x - a)). split; [lia|]. apply in_seq. lia.
Qed.

Lemma zrange_NoDup (a b : Z) : NoDup (zrange a b).
Proof.
  unfold zrange. apply NoDup_map_inv with (f := fun x => Z.to_nat (x - a)).
  rewrite map_map. erewrite map_ext; [rewrite map_id; apply seq_NoDup|].
  intros i. cbv beta. lia.
Qed.

Lemma zrange_empty (a b : Z) : b <= a -> zrange a b = [].
Proof.
  intros H. unfold zrange. replace (Z.to_nat (b - a)) with O by lia. reflexivity.
Qed.

Lemma zrange_snoc (a b : Z) : a <= b -> zrange a (b + 1) = zrange a b ++ [b].
Proof.
  intros H. unfold zrange.
  replace (Z.to_nat (b + 1 - a)) with (S (Z.to_nat (b - a))) by lia.
  rewrite seq_S, map_app. cbn [map]. f_equal. f_equal. lia.
Qed.

Lemma zrange_0_succ (k : nat) :
  zrange 0 (Z.of_nat (S k)) = 0 :: map Z.succ (zrange 0 (Z.of_nat k)).
Proof.
  unfold zrange. rewrite !Z.sub_0_r, !Nat2Z.id. cbn [seq map]. f_equal.
  rewrite <- seq_shift, !map_map. apply map_ext. intros i. lia.
Qed.

Lemma zrange_down_nat (k : nat) :
  rev (zrange 0 (Z.of_nat k)) = map (fun r => Z.of_nat k - 1 - r) (zrange 0 (Z.of_nat k)).
Proof.
  induction k as [|k IH]; [reflexivity|].
  replace (Z.of_nat (S k)) with (Z.of_nat k + 1) at 1 by lia.
  rewrite zrange_snoc by lia. rewrite rev_app_distr. cbn [rev app].
  rewrite IH, zrange_0_succ. cbn [map]. f_equal; [lia|].
  rewrite map_map. apply map_ext. intros i. lia.
Qed.

Lemma zrange_down_map (n : Z) : zrange_down n = map (fun r => n - 1 - r) (zrange 0 n).
Proof.
  unfold zrange_down.
  destruct (Z.le_gt_cases n 0) as [Hn|Hn].
  { rewrite zrange_empty by lia. reflexivity. }
  rewrite <- (Z2Nat.id n) by lia. apply zrange_down_nat.
Qed.

(** ** Window clipping *)

Section Clipping.

Variable win : window.
Variables tile_x tile_y tile_w tile_h : Z.

Lemma intersect_none :
  intersect win tile_x tile_y tile_w tile_h = None <->
  tile_x > max_x win \/ tile_x + tile_w - 1 < min_x win \/
  tile_y > max_y win \/ tile_y + tile_h - 1 < min_y win.
Proof.
  unfold intersect, outside_x, outside_y.
  destruct (Z.gtb_spec tile_x (max_x win)), (Z.ltb_spec (tile_x + tile_w - 1) (min_x win)),
    (Z.gtb_spec tile_y (max_y win)), (Z.ltb_spec (tile_y + tile_h - 1) (min_y win));
    cbn [orb]; split; intros Hyp; try reflexivity; try discriminate; lia.
Qed.

Lemma intersect_some (i : intersection) :
  intersect win tile_x tile_y tile_w tile_h = Some i ->
  (tile_x <= max_x win /\ min_x win <= tile_x + tile_w - 1 /\
   tile_y <= max_y win /\ min_y win <= tile_y + tile_h - 1) /\
  ix0 i = Z.max tile_x (min_x win) /\ iy0 i = Z.max tile_y (min_y win) /\
  ix1 i = Z.min (tile_x + tile_w - 1) (max_x win) /\
  iy1 i = Z.min (tile_y + tile_h - 1) (max_y win).
Proof.
  unfold intersect, outside_x, outside_y.
  destruct (Z.gtb_spec tile_x (max_x win)), (Z.ltb_spec (tile_x + tile_w - 1) (min_x win)),
    (Z.gtb_spec tile_y (max_y win)), (Z.ltb_spec (tile_y + tile_h - 1) (min_y win));
    cbn [orb]; intros Hyp; try discriminate.
  injection Hyp as <-. cbn. repeat split; lia.
Qed.

(** A tile of at least one pixel that lies inside the window is kept whole. *)
Lemma intersect_inside :
  0 < tile_w -> 0 < tile_h ->
  min_x win <= tile_x -> min_y win <= tile_y ->
  tile_x + tile_w - 1 <= max_x win -> tile_y + tile_h - 1 <= max_y win ->
  intersect win tile_x tile_y tile_w tile_h =
  Some (Intersection tile_x tile_y (tile_x + tile_w - 1) (tile_y + tile_h - 1)).
Proof.
  intros Hw Hh Hx Hy Hx' Hy'.
  destruct (intersect win tile_x tile_y tile_w tile_h) as [i|] eqn:E.
  - destruct (intersect_some i E) as (_ & H0 & H1 & H2 & H3).
    destruct i as [a b c d]. cbn in *. f_equal. f_equal; lia.
  - apply intersect_none in E. lia.
Qed.

(** What is taken from a tile inside the window is the tile. *)
Lemma intersect_inside_take (i : intersection) :
  min_x win <= tile_x -> min_y win <= tile_y ->
  tile_x + tile_w - 1 <= max_x win -> tile_y + tile_h - 1 <= max_y win ->
  intersect win tile_x tile_y tile_w tile_h = Some i ->
  take_x i = tile_w /\ take_y i = tile_h.
Proof.
  intros Hx Hy Hx' Hy' E. destruct (intersect_some i E) as (_ & H0 & H1 & H2 & H3).
  unfold take_x, take_y. lia.
Qed.

(** With a window that is not empty, what is taken from a tile has no
    negative side. *)
Lemma take_nonneg (i : intersection) :
  min_x win <= max_x win -> min_y win <= max_y win ->
  0 <= tile_w -> 0 <= tile_h ->
  intersect win tile_x tile_y tile_w tile_h = Some i ->
  0 <= take_x i /\ 0 <= take_y i.
Proof.
  intros Hx Hy Hw Hh E. destruct (intersect_some i E) as (Hin & H0 & H1 & H2 & H3).
  unfold take_x, take_y. lia.
Qed.

End Clipping.

(** ** Running the collaborators *)

Lemma set_pipe_same (w : world) : set_pipe (pipe w) w = w.
Proof. destruct w; reflexivity. Qed.

Lemma test_break_no_cancel (w : world) : no_cancel w -> test_break w = Ok false w.
Proof.
  unfold no_cancel, test_break. intros H. rewrite H. cbn.
  rewrite <- H. destruct w; reflexivity.
Qed.

Lemma os_read_whole (n : Z) (seg : list byte) (rest : list (list byte)) (w : world) :
  pipe w = seg :: rest -> seg <> [] -> Z.of_nat (length seg) <= n ->
  os_read n w = Ok seg (set_pipe rest w).
Proof.
  intros Hp Hs Hn. unfold os_read.
  destruct seg as [|b seg]; [congruence|].
  destruct (Z.leb_spec n 0) as [H0|H0]; [cbn [length] in Hn; lia|].
  rewrite Hp. cbn [pipe_read].
  destruct (Z.leb_spec (Z.of_nat (length (b :: seg))) n); [reflexivity | lia].
Qed.

Lemma os_read_eof (n : Z) (w : world) : pipe w = [] -> os_read n w = Ok [] w.
Proof.
  intros Hp. unfold os_read. destruct (n <=? 0); [reflexivity|].
  rewrite Hp. cbn. rewrite <- Hp. now rewrite set_pipe_same.
Qed.

Lemma bind_ok {A B : Type} (m : M A) (k : A -> M B) (w w' : world) (a : A) :
  m w = Ok a w' -> bind m k w = k a w'.
Proof. intros H. unfold bind. now rewrite H. Qed.

Lemma bind_spin {A B : Type} (m : M A) (k : A -> M B) (w : world) :
  m w = Spin -> bind m k w = Spin.
Proof. intros H. unfold bind. now rewrite H. Qed.

(** The payload loop on a payload that arrives in any number of deliveries. *)
Lemma read_tile_data_segments : forall (segs : list (list byte)) (fuel : nat) (tile_size : Z)
    (tile_data : list byte) (w : world) (rest : list (list byte)),
  no_cancel w -> pipe w = segs ++ rest -> Forall (fun s => s <> []) segs ->
  Z.of_nat (length tile_data) + Z.of_nat (length (concat segs)) = tile_size ->
  (length segs < fuel)%nat ->
  read_tile_data fuel tile_size tile_data w = Ok (tile_data ++ concat segs) (set_pipe rest w).
Proof.
  induction segs as [|seg segs IH]; intros fuel tile_size tile_data w rest Hc Hp Hne Hsz Hf;
    (destruct fuel as [|fuel]; [cbn [length] in Hf; lia|]); cbn [read_tile_data].
  - cbn [concat length] in Hsz.
    destruct (Z.ltb_spec (Z.of_nat (length tile_data)) tile_size); [lia|].
    cbn [app] in Hp. rewrite <- Hp, set_pipe_same. cbn [concat]. now rewrite app_nil_r.
  - pose proof (Forall_inv Hne) as Hs. pose proof (Forall_inv_tail Hne) as Hne'.
    cbn beta in Hs. cbn [concat] in *. rewrite length_app in Hsz.
    assert (0 < Z.of_nat (length seg)).
    { destruct seg; [congruence | cbn [length]; lia]. }
    destruct (Z.ltb_spec (Z.of_nat (length tile_data)) tile_size); [|lia].
    rewrite (bind_ok _ _ _ _ _ (test_break_no_cancel w Hc)).
    rewrite (bind_ok _ _ w (set_pipe (segs ++ rest) w) seg).
    2:{ apply os_read_whole; [exact Hp | exact Hs | lia]. }
    rewrite (IH fuel _ (tile_data ++ seg) (set_pipe (segs ++ rest) w) rest);
      [ now rewrite app_assoc | exact Hc | reflexivity | exact Hne' | | cbn [length] in Hf; lia ].
    rewrite length_app. lia.
Qed.

(** ** One tile-data chunk *)

Lemma fromstring_floats_of (data : list byte) (n : nat) :
  length data = (4 * n)%nat ->
  fromstring data = Some (floats_of data) /\ length (floats_of data) = n.
Proof.
  intros H. destruct (fromstring_total n data H) as (fl & Hf & Hl).
  unfold floats_of. rewrite Hf. split; [reflexivity | assumption].
Qed.

Lemma unpack_I_nonempty (n : nat) (data : list byte) (vs : list Z) :
  unpack_I (S n) data = Some vs -> data <> [] /\ Z.of_nat (length data) = 4 * Z.of_nat (S n).
Proof.
  intros H. destruct (unpack_I_some _ _ _ H) as (_ & Hl & _).
  split; [destruct data; [discriminate | congruence] | lia].
Qed.

(** [__process_tile_data_chunk] from the header to the return, given what the
    payload loop does. *)
Lemma process_tile_data_chunk_payload (fuel : nat) (win : window) (w : world)
    (hdr data : list byte) (p1 p' : list (list byte))
    (tile_x tile_y tile_w tile_h tile_c : Z) :
  no_cancel w ->
  pipe w = hdr :: p1 ->
  unpack_I 5 hdr = Some [tile_x; tile_y; tile_w; tile_h; tile_c] ->
  read_tile_data fuel (tile_w * tile_h * tile_c * 4) [] (set_pipe p1 w)
  = Ok data (set_pipe p' w) ->
  Z.of_nat (length data) = tile_w * tile_h * tile_c * 4 ->
  process_tile_data_chunk fuel win w = tile_outcome win w p' data tile_x tile_y tile_w tile_h.
Proof.
  intros Hc Hp Hu Hread Hsz.
  destruct (unpack_I_nonempty _ _ _ Hu) as (Hh & Hl).
  unfold process_tile_data_chunk, tile_outcome.
  rewrite (bind_ok _ _ w (set_pipe p1 w) hdr)
    by (apply os_read_whole; [exact Hp | exact Hh | lia]).
  unfold struct_unpack. rewrite Hu. cbn [lift_option].
  rewrite (bind_ok _ _ _ (set_pipe p1 w) [tile_x; tile_y; tile_w; tile_h; tile_c])
    by reflexivity.
  cbn [item nth].
  rewrite (bind_ok _ _ _ _ _ Hread).
  rewrite (bind_ok _ _ _ _ _ (test_break_no_cancel (set_pipe p' w) Hc)).
  destruct (intersect win tile_x tile_y tile_w tile_h) as [i|]; [|reflexivity].
  assert (Hlen : length data = (4 * Z.to_nat (tile_w * tile_h * tile_c))%nat) by lia.
  destruct (fromstring_floats_of _ _ Hlen) as (Hfs & _).
  unfold array_fromstring. rewrite Hfs. cbn [lift_option].
  unfold bind, ret, emit, add_rendered_pixels, update_progress, tile_commit, drawn.
  destruct w as [p o r t s pr k]. cbn.
  destruct (t =? 0); reflexivity.
Qed.

(** A chunk that arrives whole: the 20-byte header in one delivery, the
    payload in any number of them. *)
Lemma process_tile_data_chunk_run (fuel : nat) (win : window) (w : world)
    (hdr : list byte) (segs rest : list (list byte)) (tile_x tile_y tile_w tile_h tile_c : Z) :
  no_cancel w ->
  pipe w = hdr :: segs ++ rest ->
  unpack_I 5 hdr = Some [tile_x; tile_y; tile_w; tile_h; tile_c] ->
  Forall (fun s => s <> []) segs ->
  Z.of_nat (length (concat segs)) = tile_w * tile_h * tile_c * 4 ->
  (length segs < fuel)%nat ->
  process_tile_data_chunk fuel win w
  = tile_outcome win w rest (concat segs) tile_x tile_y tile_w tile_h.
Proof.
  intros Hc Hp Hu Hne Hsz Hf.
  apply (process_tile_data_chunk_payload fuel win w hdr (concat segs) (segs ++ rest) rest
           tile_x tile_y tile_w tile_h tile_c); auto.
  rewrite (read_tile_data_segments segs fuel _ [] _ rest); auto.
Qed.

(** A chunk never takes pixels back: whatever part of the tile meets a window
    that is not empty, the counter does not decrease and the total stays. *)
Lemma tile_outcome_monotone (win : window) (w w' : world) (p' : list (list byte))
    (data : list byte) (tile_x tile_y tile_w tile_h : Z) :
  min_x win <= max_x win -> min_y win <= max_y win ->
  0 <= tile_w -> 0 <= tile_h ->
  final_world (tile_outcome win w p' data tile_x tile_y tile_w tile_h) = Some w' ->
  rendered_pixels w <= rendered_pixels w' /\ total_pixels w' = total_pixels w.
Proof.
  intros Hx Hy Hw Hh. unfold tile_outcome.
  destruct (intersect win tile_x tile_y tile_w tile_h) as [i|] eqn:E.
  - destruct (take_nonneg win tile_x tile_y tile_w tile_h i Hx Hy Hw Hh E) as (Htx & Hty).
    destruct (total_pixels w =? 0); cbn [final_world]; intros Hw'; injection Hw' as <-;
      cbn; split; try reflexivity; nia.
  - cbn [final_world]. intros Hw'. injection Hw' as <-. cbn. split; [lia | reflexivity].
Qed.

(** ** One tile-highlight chunk *)

Lemma draw_brackets_run (rx0 ry0 rx1 ry1 : Z) (w : world) :
  draw_brackets rx0 ry0 rx1 ry1 w = Ok tt (add_commits (bracket_commits rx0 ry0 rx1 ry1) w).
Proof.
  unfold draw_brackets, bracket_commits, draw_hline, draw_vline, emit, bind, add_commits,
    add_commit.
  cbn [pipe brk rendered_pixels total_pixels sink progress killed].
  rewrite <- !app_assoc. reflexivity.
Qed.

Lemma process_tile_highlight_chunk_run (win : window) (w : world) (hdr : list byte)
    (rest : list (list byte)) (tile_x tile_y tile_w tile_h : Z) :
  pipe w = hdr :: rest ->
  unpack_I 4 hdr = Some [tile_x; tile_y; tile_w; tile_h] ->
  process_tile_highlight_chunk win w =
  match intersect win tile_x tile_y tile_w tile_h with
  | None => Ok true (set_pipe rest w)
  | Some i =>
      Ok true (add_commits (bracket_commits (x0 win i) (y0 win i) (x1 win i) (y1 win i))
                           (set_pipe rest w))
  end.
Proof.
  intros Hp Hu. destruct (unpack_I_nonempty _ _ _ Hu) as (Hh & Hl).
  unfold process_tile_highlight_chunk.
  rewrite (bind_ok _ _ w (set_pipe rest w) hdr)
    by (apply os_read_whole; [exact Hp | exact Hh | lia]).
  unfold struct_unpack. rewrite Hu. cbn [lift_option].
  rewrite (bind_ok _ _ _ (set_pipe rest w) [tile_x; tile_y; tile_w; tile_h]) by reflexivity.
  cbn [item nth].
  destruct (intersect win tile_x tile_y tile_w tile_h) as [i|]; [|reflexivity].
  erewrite bind_ok by apply draw_brackets_run. reflexivity.
Qed.

(** ** One turn of the loop *)

(** The loop on a chunk header that arrives whole. *)
Lemma render_loop_header (fuel : nat) (win : window) (w : world) (chdr : list byte)
    (p : list (list byte)) (chunk_type chunk_size : Z) :
  no_cancel w ->
  pipe w = chdr :: p ->
  unpack_I 2 chdr = Some [chunk_type; chunk_size] ->
  render_loop (S fuel) win w =
  (if chunk_type =? 1 then
     continue <- process_tile_data_chunk fuel win ;;
     if continue then render_loop fuel win else ret tt
   else if chunk_type =? 2 then
     continue <- process_tile_highlight_chunk win ;;
     if continue then render_loop fuel win else ret tt
   else
     os_read chunk_size ;;; render_loop fuel win) (set_pipe p w).
Proof.
  intros Hc Hp Hu. destruct (unpack_I_nonempty _ _ _ Hu) as (Hh & Hl).
  cbn [render_loop].
  rewrite (bind_ok _ _ _ _ _ (test_break_no_cancel w Hc)).
  rewrite (bind_ok _ _ w (set_pipe p w) chdr)
    by (apply os_read_whole; [exact Hp | exact Hh | lia]).
  destruct chdr as [|b chdr]; [congruence|].
  unfold struct_unpack. rewrite Hu. cbn [lift_option].
  rewrite (bind_ok _ _ _ (set_pipe p w) [chunk_type; chunk_size]) by reflexivity.
  reflexivity.
Qed.

(** The loop at the end of the stream. *)
Lemma render_loop_eof (fuel : nat) (win : window) (w : world) :
  no_cancel w -> pipe w = [] -> render_loop (S fuel) win w = Ok tt w.
Proof.
  intros Hc Hp. cbn [render_loop].
  rewrite (bind_ok _ _ _ _ _ (test_break_no_cancel w Hc)).
  rewrite (bind_ok _ _ _ _ _ (os_read_eof _ w Hp)). reflexivity.
Qed.

(** ** The payload loop on any pipe *)

Lemma pipe_read_spec (n : Z) : forall p : list (list byte),
  0 < n ->
  fst (pipe_read n p) ++ concat (snd (pipe_read n p)) = concat p /\
  Z.of_nat (length (fst (pipe_read n p))) <= n /\
  (length (snd (pipe_read n p)) <= length p)%nat /\
  (Z.of_nat (length (fst (pipe_read n p))) < n -> concat p <> [] ->
   (length (snd (pipe_read n p)) < length p)%nat).
Proof.
  intros p Hn. induction p as [|seg rest IH].
  { cbn. repeat split; try lia. intros _ Hne. now elim Hne. }
  destruct seg as [|b seg].
  - cbn [pipe_read concat app length]. destruct IH as (H1 & H2 & H3 & H4).
    repeat split; [exact H1 | exact H2 | lia |]. intros Hlt Hne. specialize (H4 Hlt Hne). lia.
  - cbn [pipe_read]. destruct (Z.leb_spec (Z.of_nat (length (b :: seg))) n) as [Hle|Hgt].
    + cbn [fst snd concat]. repeat split; cbn [length] in *; try reflexivity; lia.
    + cbn [fst snd concat]. rewrite length_firstn.
      repeat split; cbn [length] in *; try lia.
      rewrite app_assoc, firstn_skipn. reflexivity.
Qed.

Lemma os_read_pipe (n : Z) (w : world) :
  0 < n ->
  os_read n w = Ok (fst (pipe_read n (pipe w))) (set_pipe (snd (pipe_read n (pipe w))) w).
Proof.
  intros Hn. unfold os_read. destruct (Z.leb_spec n 0); [lia|].
  destruct (pipe_read n (pipe w)); reflexivity.
Qed.

Lemma read_tile_data_done (fuel : nat) (tile_size : Z) (tile_data : list byte) (w : world) :
  tile_size <= Z.of_nat (length tile_data) ->
  read_tile_data (S fuel) tile_size tile_data w = Ok tile_data w.
Proof.
  intros H. cbn [read_tile_data].
  destruct (Z.ltb_spec (Z.of_nat (length tile_data)) tile_size); [lia | reflexivity].
Qed.

(** The loop returns exactly the bytes that were missing, however the pipe
    delivers them, and leaves the bytes after them in the pipe. *)
Lemma read_tile_data_exact : forall (fuel : nat) (tile_size : Z) (tile_data : list byte)
    (w : world),
  no_cancel w ->
  tile_size - Z.of_nat (length tile_data) <= Z.of_nat (length (concat (pipe w))) ->
  (length (pipe w) < fuel)%nat ->
  exists p' : list (list byte),
    read_tile_data fuel tile_size tile_data w
    = Ok (tile_data ++ firstn (Z.to_nat (tile_size - Z.of_nat (length tile_data)))
                              (concat (pipe w)))
         (set_pipe p' w) /\
    concat p' = skipn (Z.to_nat (tile_size - Z.of_nat (length tile_data))) (concat (pipe w)).
Proof.
  induction fuel as [|fuel IH]; intros tile_size tile_data w Hc Hsz Hf; [lia|].
  destruct (Z.le_gt_cases tile_size (Z.of_nat (length tile_data))) as [Hdone|Hmore].
  { exists (pipe w). rewrite read_tile_data_done by exact Hdone.
    replace (Z.to_nat (tile_size - Z.of_nat (length tile_data))) with O by lia.
    cbn [firstn skipn]. rewrite app_nil_r, set_pipe_same. split; reflexivity. }
  set (n := tile_size - Z.of_nat (length tile_data)) in *.
  assert (Hn : 0 < n) by lia.
  destruct (pipe_read_spec n (pipe w) Hn) as (Hcat & Hlen & Hshort & Hstrict).
  set (d := fst (pipe_read n (pipe w))) in *.
  set (p1 := snd (pipe_read n (pipe w))) in *.
  assert (Hstep : read_tile_data (S fuel) tile_size tile_data w
                  = read_tile_data fuel tile_size (tile_data ++ d) (set_pipe p1 w)).
  { cbn [read_tile_data].
    destruct (Z.ltb_spec (Z.of_nat (length tile_data)) tile_size); [|lia].
    rewrite (bind_ok _ _ _ _ _ (test_break_no_cancel w Hc)).
    fold n. rewrite (bind_ok _ _ _ _ _ (os_read_pipe n w Hn)). reflexivity. }
  rewrite Hstep.
  assert (Hne : concat (pipe w) <> []).
  { intros E. rewrite E in Hsz. cbn [length] in Hsz. lia. }
  assert (Hn' : tile_size - Z.of_nat (length (tile_data ++ d)) = n - Z.of_nat (length d)).
  { rewrite length_app. lia. }
  assert (Hfirst : firstn (Z.to_nat n) (concat (pipe w))
                   = d ++ firstn (Z.to_nat (n - Z.of_nat (length d))) (concat p1)).
  { rewrite <- Hcat, firstn_app. rewrite firstn_all2 by lia. f_equal. f_equal. lia. }
  assert (Hskip : skipn (Z.to_nat n) (concat (pipe w))
                  = skipn (Z.to_nat (n - Z.of_nat (length d))) (concat p1)).
  { rewrite <- Hcat, skipn_app. rewrite skipn_all2 by lia. cbn [app]. f_equal. lia. }
  destruct (Z.eq_dec (Z.of_nat (length d)) n) as [Hall|Hpart].
  - (* the read completed the payload *)
    destruct fuel as [|fuel].
    { assert (length (pipe w) <> 0)%nat; [|lia].
      intros E0. apply length_zero_iff_nil in E0. rewrite E0 in Hne. now apply Hne. }
    exists p1. rewrite read_tile_data_done by lia.
    rewrite Hfirst, Hskip. replace (Z.to_nat (n - Z.of_nat (length d))) with O by lia.
    cbn [firstn skipn]. rewrite app_nil_r. split; reflexivity.
  - destruct (IH tile_size (tile_data ++ d) (set_pipe p1 w)) as (p' & Hrun & Hrest).
    + exact Hc.
    + rewrite Hn'. cbn [pipe set_pipe]. rewrite <- Hcat, length_app in Hsz. lia.
    + cbn [pipe set_pipe]. assert (length p1 < length (pipe w))%nat by (apply Hstrict; [lia | exact Hne]).
      lia.
    + exists p'. rewrite Hrun, Hrest, Hn'. cbn [pipe set_pipe].
      rewrite Hfirst, Hskip, app_assoc. split; reflexivity.
Qed.

(** When the pipe closes before the payload is complete and nobody cancels, the
    loop never ends. *)
Lemma read_tile_data_truncated : forall (fuel : nat) (tile_size : Z) (tile_data : list byte)
    (w : world),
  no_cancel w ->
  Z.of_nat (length (concat (pipe w))) < tile_size - Z.of_nat (length tile_data) ->
  read_tile_data fuel tile_size tile_data w = Spin.
Proof.
  induction fuel as [|fuel IH]; intros tile_size tile_data w Hc Hsz; [reflexivity|].
  cbn [read_tile_data].
  destruct (Z.ltb_spec (Z.of_nat (length tile_data)) tile_size); [|lia].
  rewrite (bind_ok _ _ _ _ _ (test_break_no_cancel w Hc)).
  set (n := tile_size - Z.of_nat (length tile_data)) in *.
  assert (Hn : 0 < n) by lia.
  rewrite (bind_ok _ _ _ _ _ (os_read_pipe n w Hn)).
  destruct (pipe_read_spec n (pipe w) Hn) as (Hcat & _).
  apply IH; [exact Hc|]. cbn [pipe set_pipe].
  rewrite <- Hcat, length_app in Hsz. rewrite length_app. lia.
Qed.

(** ** Unknown chunks *)

(** An unknown chunk whose payload comes in one delivery is skipped. *)
Lemma unknown_chunk_skipped_when_whole (fuel : nat) (win : window) (w : world)
    (chdr payload : list byte) (rest : list (list byte)) (chunk_type chunk_size : Z) :
  no_cancel w ->
  pipe w = chdr :: payload :: rest ->
  unpack_I 2 chdr = Some [chunk_type; chunk_size] ->
  chunk_type <> 1 -> chunk_type <> 2 ->
  payload <> [] -> Z.of_nat (length payload) = chunk_size ->
  render_loop (S fuel) win w = render_loop fuel win (set_pipe rest w).
Proof.
  intros Hc Hp Hu H1 H2 Hne Hsz.
  rewrite (render_loop_header fuel win w chdr _ chunk_type chunk_size Hc Hp Hu).
  destruct (Z.eqb_spec chunk_type 1); [contradiction|].
  destruct (Z.eqb_spec chunk_type 2); [contradiction|].
  rewrite (bind_ok _ _ _ (set_pipe rest (set_pipe (payload :: rest) w)) payload);
    [reflexivity|].
  apply os_read_whole; [reflexivity | exact Hne | lia].
Qed.

(** ** Short reads and closed pipes *)

Lemma unpack_I_short (n : nat) : forall data : list byte,
  length data <> (4 * n)%nat -> unpack_I n data = None.
Proof.
  induction n as [|n IH]; intros data H.
  - destruct data; [cbn in H; lia | reflexivity].
  - destruct data as [|b0 [|b1 [|b2 [|b3 rest]]]]; try reflexivity.
    cbn [unpack_I]. rewrite IH; [reflexivity|]. cbn [length] in H. lia.
Qed.

(** A chunk header that comes in a first delivery of fewer than 8 bytes is
    handed to [struct.unpack] as it is. *)
Lemma render_loop_short_header (fuel : nat) (win : window) (w : world) (seg : list byte)
    (rest : list (list byte)) :
  no_cancel w -> pipe w = seg :: rest -> seg <> [] -> (length seg < 8)%nat ->
  render_loop (S fuel) win w = Raise StructError (set_pipe rest w).
Proof.
  intros Hc Hp Hne Hlen. cbn [render_loop].
  rewrite (bind_ok _ _ _ _ _ (test_break_no_cancel w Hc)).
  rewrite (bind_ok _ _ w (set_pipe rest w) seg)
    by (apply os_read_whole; [exact Hp | exact Hne | lia]).
  destruct seg as [|b seg]; [congruence|].
  unfold struct_unpack. rewrite unpack_I_short by lia. reflexivity.
Qed.

(** A tile-data chunk whose payload is cut short by the end of the stream:
    without a cancellation the loop does not end. *)
Lemma render_loop_truncated_payload (win : window) (w : world) (chdr hdr : list byte)
    (p1 : list (list byte)) (chunk_size tile_x tile_y tile_w tile_h tile_c : Z) :
  no_cancel w ->
  pipe w = chdr :: hdr :: p1 ->
  unpack_I 2 chdr = Some [1; chunk_size] ->
  unpack_I 5 hdr = Some [tile_x; tile_y; tile_w; tile_h; tile_c] ->
  Z.of_nat (length (concat p1)) < tile_w * tile_h * tile_c * 4 ->
  forall fuel : nat, render_loop fuel win w = Spin.
Proof.
  intros Hc Hp Hu2 Hu5 Hsz fuel.
  destruct fuel as [|fuel]; [reflexivity|].
  rewrite (render_loop_header fuel win w chdr _ 1 chunk_size Hc Hp Hu2).
  cbn [Z.eqb Pos.eqb]. apply bind_spin.
  destruct (unpack_I_nonempty _ _ _ Hu5) as (Hh & Hl).
  unfold process_tile_data_chunk.
  rewrite (bind_ok _ _ _ (set_pipe p1 (set_pipe (hdr :: p1) w)) hdr)
    by (apply os_read_whole; [reflexivity | exact Hh | lia]).
  unfold struct_unpack. rewrite Hu5. cbn [lift_option].
  rewrite (bind_ok _ _ _ (set_pipe p1 w) [tile_x; tile_y; tile_w; tile_h; tile_c])
    by reflexivity.
  cbn [item nth]. apply bind_spin.
  apply read_tile_data_truncated; [exact Hc|]. cbn [pipe set_pipe length]. lia.
Qed.

(** ** The rows of a tile *)

Lemma zrange_shift (a n : Z) : zrange a (a + n) = map (fun c => a + c) (zrange 0 n).
Proof.
  unfold zrange. rewrite map_map. replace (a + n - a) with (n - 0) by lia.
  apply map_ext. intros i. lia.
Qed.

(** Taking a whole tile of 4 channels gives its rows, last row first. *)
Lemma extract_pix_whole (floats : list Z) (tile_w tile_h : Z) :
  extract_pix floats tile_w 0 0 tile_w tile_h = rows_reversed floats tile_w tile_h 4.
Proof.
  unfold extract_pix, rows_reversed. rewrite zrange_down_map.
  rewrite !flat_map_concat_map, map_map. f_equal. apply map_ext. intros r.
  cbv zeta. rewrite zrange_shift. unfold source_row. rewrite map_map.
  apply map_ext. intros c. unfold source_pixel. f_equal; lia.
Qed.

(** ** Counting pixels *)

Lemma NoDup_list_prod {A B : Type} (l : list A) (l' : list B) :
  NoDup l -> NoDup l' -> NoDup (list_prod l l').
Proof.
  intros Hl Hl'. induction Hl as [|a l Ha Hl IH]; [constructor|].
  cbn [list_prod]. apply NoDup_app.
  - apply NoDup_map_inv with (f := snd). rewrite map_map. cbn [snd].
    rewrite map_id. exact Hl'.
  - exact IH.
  - intros [x y] Hin Hin'. apply in_map_iff in Hin. destruct Hin as (b & Heq & _).
    injection Heq as <- <-. apply in_prod_iff in Hin'. destruct Hin' as (Hin' & _).
    exact (Ha Hin').
Qed.

Lemma rect_pixels_In (x y w h px py : Z) :
  In (px, py) (rect_pixels x y w h) <-> x <= px < x + w /\ y <= py < y + h.
Proof. unfold rect_pixels. rewrite in_prod_iff, !zrange_In. reflexivity. Qed.

Lemma rect_pixels_length (x y w h : Z) :
  0 <= w -> 0 <= h -> Z.of_nat (length (rect_pixels x y w h)) = w * h.
Proof.
  intros Hw Hh. unfold rect_pixels. rewrite length_prod, !zrange_length. nia.
Qed.

Lemma rect_pixels_NoDup (x y w h : Z) : NoDup (rect_pixels x y w h).
Proof. apply NoDup_list_prod; apply zrange_NoDup. Qed.

Lemma tile_pixels_covers (t : tile_chunk) (x y : Z) :
  In (x, y) (tile_pixels t) <-> covers t x y.
Proof. apply rect_pixels_In. Qed.

Lemma well_formed_fields (t : tile_chunk) :
  well_formed t -> 0 <= t_w t /\ 0 <= t_h t /\ 0 <= area t.
Proof.
  intros (Hr & _).
  repeat match goal with H : Forall _ (_ :: _) |- _ => inversion H; clear H; subst end.
  unfold u32, area in *. nia.
Qed.

(** Tiles that do not overlap have no pixel in common. *)
Lemma non_overlapping_NoDup (ts : list tile_chunk) :
  non_overlapping ts -> NoDup (flat_map tile_pixels ts).
Proof.
  induction ts as [|t ts IH]; intros H; [constructor|].
  destruct H as (Ht & Hts). cbn [flat_map]. apply NoDup_app.
  - apply rect_pixels_NoDup.
  - apply IH. exact Hts.
  - intros [x y] Hin Hin'. apply in_flat_map in Hin'. destruct Hin' as (t' & Hmem & Hin').
    rewrite Forall_forall in Ht. apply (Ht t' Hmem).
    exists x, y. split; apply tile_pixels_covers; assumption.
Qed.

Lemma sum_areas_pixels (ts : list tile_chunk) :
  Forall well_formed ts -> Z.of_nat (length (flat_map tile_pixels ts)) = sum_areas ts.
Proof.
  induction 1 as [|t ts Ht _ IH]; [reflexivity|].
  cbn [flat_map sum_areas fold_right]. rewrite length_app, Nat2Z.inj_add.
  fold (sum_areas ts). rewrite IH.
  destruct (well_formed_fields t Ht) as (Hw & Hh & _).
  unfold tile_pixels. rewrite rect_pixels_length by assumption. reflexivity.
Qed.

(** Tiles inside the window that do not overlap cover no more than the window. *)
Lemma sum_areas_bound (win : window) (ts : list tile_chunk) :
  min_x win <= max_x win -> min_y win <= max_y win ->
  Forall well_formed ts -> Forall (inside win) ts -> non_overlapping ts ->
  sum_areas ts <= (max_x win - min_x win + 1) * (max_y win - min_y win + 1).
Proof.
  intros Hx Hy Hwf Hin Hno.
  rewrite <- (sum_areas_pixels ts Hwf).
  rewrite <- (rect_pixels_length (min_x win) (min_y win)) by lia.
  apply Nat2Z.inj_le. apply NoDup_incl_length; [apply non_overlapping_NoDup; exact Hno|].
  intros [x y] Hmem. apply in_flat_map in Hmem. destruct Hmem as (t & Ht & Hmem).
  rewrite Forall_forall in Hin. destruct (Hin t Ht) as (H1 & H2 & H3 & H4).
  apply rect_pixels_In in Hmem. apply rect_pixels_In. lia.
Qed.

Lemma sum_areas_nonneg (ts : list tile_chunk) : Forall well_formed ts -> 0 <= sum_areas ts.
Proof.
  induction 1 as [|t ts Ht _ IH]; [reflexivity|].
  cbn [sum_areas fold_right]. fold (sum_areas ts).
  destruct (well_formed_fields t Ht) as (_ & _ & Ha). lia.
Qed.

(** ** The loop on a stream of tiles *)

Lemma well_formed_headers (t : tile_chunk) :
  well_formed t ->
  unpack_I 2 (encode_u32s [1; t_size t]) = Some [1; t_size t] /\
  unpack_I 5 (encode_u32s [t_x t; t_y t; t_w t; t_h t; t_c t])
  = Some [t_x t; t_y t; t_w t; t_h t; t_c t].
Proof.
  intros (Hr & _). split.
  - apply (unpack_I_encode [1; t_size t]).
    constructor; [unfold u32; lia|]. constructor; [|constructor].
    exact (Forall_inv Hr).
  - apply (unpack_I_encode [t_x t; t_y t; t_w t; t_h t; t_c t]).
    exact (Forall_inv_tail Hr).
Qed.

(** What a tile inside the window adds to the counter is its area, drawn or not. *)
Lemma inside_tile_outcome (win : window) (w : world) (t : tile_chunk) (rest : list (list byte)) :
  well_formed t -> inside win t -> total_pixels w <> 0 ->
  exists (cs : list commit) (rs : list Z),
    tile_outcome win w rest (concat (t_payload t)) (t_x t) (t_y t) (t_w t) (t_h t)
    = Ok true (World rest (brk w) (rendered_pixels w + area t) (total_pixels w)
                     (sink w ++ cs) (progress w ++ map (fraction (total_pixels w)) rs)
                     (killed w)) /\
    Forall (eq (rendered_pixels w + area t)) rs /\ length rs = length cs.
Proof.
  intros Hwf (Hx & Hy & Hx' & Hy') Ht.
  destruct (well_formed_fields t Hwf) as (Hw & Hh & _).
  unfold tile_outcome.
  destruct (intersect win (t_x t) (t_y t) (t_w t) (t_h t)) as [i|] eqn:E.
  - destruct (intersect_inside_take win (t_x t) (t_y t) (t_w t) (t_h t) i Hx Hy Hx' Hy' E)
      as (Htx & Hty).
    destruct (Z.eqb_spec (total_pixels w) 0); [contradiction|].
    eexists [_], [_]. rewrite Htx, Hty. fold (area t).
    split; [reflexivity|]. split; [repeat constructor | reflexivity].
  - exists [], []. apply intersect_none in E.
    assert (Ha : area t = 0) by (unfold area; nia).
    rewrite Ha, Z.add_0_r. cbn [map]. rewrite !app_nil_r.
    split; [destruct w; reflexivity|]. split; [constructor | reflexivity].
Qed.

Lemma render_loop_tiles (win : window) : forall (ts : list tile_chunk) (fuel : nat) (w : world),
  no_cancel w ->
  pipe w = stream_of ts ->
  total_pixels w <> 0 ->
  Forall well_formed ts -> Forall (inside win) ts ->
  (length (stream_of ts) < fuel)%nat ->
  exists (cs : list commit) (rs : list Z),
    render_loop fuel win w
    = Ok tt (World [] (brk w) (rendered_pixels w + sum_areas ts) (total_pixels w)
                   (sink w ++ cs) (progress w ++ map (fraction (total_pixels w)) rs)
                   (killed w)) /\
    Forall (fun r => rendered_pixels w <= r <= rendered_pixels w + sum_areas ts) rs /\
    StronglySorted Z.le rs /\
    length rs = length cs.
Proof.
  induction ts as [|t ts IH]; intros fuel w Hc Hp Ht Hwf Hin Hf.
  - destruct fuel as [|fuel]; [cbn in Hf; lia|].
    exists [], []. rewrite (render_loop_eof fuel win w Hc Hp).
    cbn [sum_areas fold_right map]. rewrite Z.add_0_r, !app_nil_r.
    split; [|repeat constructor].
    destruct w; cbn in Hp; subst; reflexivity.
  - destruct fuel as [|fuel]; [cbn in Hf; lia|].
    pose proof (Forall_inv Hwf) as Hwt. pose proof (Forall_inv_tail Hwf) as Hwts.
    pose proof (Forall_inv Hin) as Hit. pose proof (Forall_inv_tail Hin) as Hits.
    destruct (well_formed_headers t Hwt) as (Hu2 & Hu5).
    destruct Hwt as (Hr & Hne & Hsz).
    cbn [stream_of flat_map] in Hp, Hf. fold (stream_of ts) in Hp, Hf.
    unfold deliveries in Hp, Hf.
    cbn [app length] in Hp, Hf. rewrite length_app in Hf.
    rewrite (render_loop_header fuel win w _ _ 1 (t_size t) Hc Hp Hu2).
    cbn [Z.eqb Pos.eqb].
    destruct (inside_tile_outcome win
                (set_pipe (encode_u32s [t_x t; t_y t; t_w t; t_h t; t_c t]
                           :: t_payload t ++ stream_of ts) w)
                t (stream_of ts) (conj Hr (conj Hne Hsz)) Hit Ht)
      as (cs1 & rs1 & Hout & Hrs1 & Hlen1).
    cbn [brk rendered_pixels total_pixels sink progress killed set_pipe] in Hout, Hrs1.
    erewrite bind_ok.
    2:{ rewrite (process_tile_data_chunk_run fuel win
                   (set_pipe (encode_u32s [t_x t; t_y t; t_w t; t_h t; t_c t]
                              :: t_payload t ++ stream_of ts) w)
                   (encode_u32s [t_x t; t_y t; t_w t; t_h t; t_c t])
                   (t_payload t) (stream_of ts)
                   (t_x t) (t_y t) (t_w t) (t_h t) (t_c t));
          [exact Hout | exact Hc | reflexivity | exact Hu5 | exact Hne | exact Hsz | lia]. }
    destruct (well_formed_fields t (conj Hr (conj Hne Hsz))) as (_ & _ & Ha).
    pose proof (sum_areas_nonneg ts Hwts) as Hs.
    edestruct (IH fuel) as (cs2 & rs2 & Hrun & Hrs2 & Hsorted & Hlen2);
      [ | | | exact Hwts | exact Hits | | ].
    5:{ rewrite Hrun. cbn [brk rendered_pixels total_pixels sink progress killed].
        cbn [rendered_pixels] in Hrs2.
        exists (cs1 ++ cs2), (rs1 ++ rs2).
        cbn [sum_areas fold_right]. fold (sum_areas ts).
        rewrite map_app, <- !app_assoc, Z.add_assoc.
        split; [reflexivity|]. split; [|split].
        - apply Forall_app. split.
          + eapply Forall_impl; [|exact Hrs1]. cbv beta. intros r <-. lia.
          + eapply Forall_impl; [|exact Hrs2]. cbv beta. intros r Hr'. lia.
        - clear Hrun Hout Hlen1 Hlen2.
          induction rs1 as [|r1 rs1 IHrs]; [exact Hsorted|].
          cbn [app]. pose proof (Forall_inv Hrs1) as <-.
          constructor; [apply IHrs; exact (Forall_inv_tail Hrs1)|].
          apply Forall_app. split.
          + eapply Forall_impl; [|exact (Forall_inv_tail Hrs1)]. cbv beta. intros r <-. lia.
          + eapply Forall_impl; [|exact Hrs2]. cbv beta. intros r Hr'. lia.
        - rewrite !length_app. lia. }
    + exact Hc.
    + reflexivity.
    + exact Ht.
    + lia.
Qed.

Lemma fraction_le_1 (total rendered : Z) :
  0 < total -> rendered <= total -> (fraction total rendered <= 1)%Q.
Proof.
  intros Ht Hr. unfold fraction. apply Qle_shift_div_r.
  - change 0%Q with (inject_Z 0). rewrite <- Zlt_Qlt. exact Ht.
  - rewrite Qmult_1_l. rewrite <- Zle_Qle. exact Hr.
Qed.

(** * The claims on window clipping *)

(** C8.  A tile that lies inside the render window ([tile_x >= min_x],
    [tile_y >= min_y], [tile_x + w - 1 <= max_x], [tile_y + h - 1 <= max_y]) is
    taken whole: whatever intersection the clipper returns has [take_x = w],
    [take_y = h] and [skip_x = skip_y = 0]; and it does return one as soon as
    the tile has a pixel. *)
Theorem inside_tile_taken_whole (win : window) (tile_x tile_y tile_w tile_h : Z) :
  min_x win <= tile_x -> min_y win <= tile_y ->
  tile_x + tile_w - 1 <= max_x win -> tile_y + tile_h - 1 <= max_y win ->
  (forall i, intersect win tile_x tile_y tile_w tile_h = Some i ->
             take_x i = tile_w /\ take_y i = tile_h /\
             skip_x i tile_x = 0 /\ skip_y i tile_y = 0) /\
  (0 < tile_w -> 0 < tile_h ->
   exists i, intersect win tile_x tile_y tile_w tile_h = Some i).
Proof.
  intros Hx Hy Hx' Hy'. split.
  - intros i E. destruct (intersect_some _ _ _ _ _ _ E) as (_ & H0 & H1 & H2 & H3).
    unfold take_x, take_y, skip_x, skip_y. lia.
  - intros Hw Hh. eexists. apply intersect_inside; assumption.
Qed.

Lemma inside_tile_taken_whole_witness :
  (forall i, intersect window_4x4 1 1 2 2 = Some i ->
             take_x i = 2 /\ take_y i = 2 /\ skip_x i 1 = 0 /\ skip_y i 1 = 0) /\
  (0 < 2 -> 0 < 2 -> exists i, intersect window_4x4 1 1 2 2 = Some i).
Proof.
  apply (inside_tile_taken_whole window_4x4 1 1 2 2); cbn; lia.
Defined.

(** C5.  For a tile that meets the render window the destination Y origin is
    [max_y - iy1], with [iy1] the last row of the intersection; a tile whose
    last row is [max_y] gets [dest_y0 = 0], and a tile whose first row is
    [min_y] gets [dest_y0 + take_y - 1 = max_y - min_y].  The commit of the tile
    is made at that origin. *)
Theorem dest_y_is_flipped (win : window) (tile_x tile_y tile_w tile_h : Z) (i : intersection)
    (floats : list Z) :
  intersect win tile_x tile_y tile_w tile_h = Some i ->
  iy1 i = Z.min (tile_y + tile_h - 1) (max_y win) /\
  y0 win i = max_y win - iy1 i /\
  cy (tile_commit win tile_x tile_y tile_w i floats) = max_y win - iy1 i /\
  (tile_y + tile_h - 1 = max_y win -> y0 win i = 0) /\
  (tile_y = min_y win -> y0 win i + take_y i - 1 = max_y win - min_y win).
Proof.
  intros E. destruct (intersect_some _ _ _ _ _ _ E) as (Hin & H0 & H1 & H2 & H3).
  unfold y0, take_y, tile_commit. cbn [cy]. unfold y0. repeat split; lia.
Qed.

Lemma dest_y_is_flipped_witness :
  let i := Intersection 0 0 1 3 in
  iy1 i = Z.min (0 + 4 - 1) (max_y window_4x4) /\
  y0 window_4x4 i = max_y window_4x4 - iy1 i /\
  cy (tile_commit window_4x4 0 0 2 i []) = max_y window_4x4 - iy1 i /\
  (0 + 4 - 1 = max_y window_4x4 -> y0 window_4x4 i = 0) /\
  (0 = min_y window_4x4 -> y0 window_4x4 i + take_y i - 1 = max_y window_4x4 - min_y window_4x4).
Proof.
  exact (dest_y_is_flipped window_4x4 0 0 2 4 (Intersection 0 0 1 3) [] eq_refl).
Defined.

(** C7.  A tile that lies outside the render window in one of the four
    directions is reported outside by the clipper.  Its chunk, data or
    highlight, is read and dropped: the counters, the sink and the reported
    fractions are those from before the chunk, and the loop goes on with the
    next chunk header. *)
Theorem outside_tile_is_skipped (fuel : nat) (win : window) (w : world)
    (chdr hdr : list byte) (segs rest : list (list byte))
    (chunk_size tile_x tile_y tile_w tile_h tile_c : Z) :
  no_cancel w ->
  tile_x > max_x win \/ tile_x + tile_w - 1 < min_x win \/
  tile_y > max_y win \/ tile_y + tile_h - 1 < min_y win ->
  intersect win tile_x tile_y tile_w tile_h = None /\
  (pipe w = chdr :: hdr :: segs ++ rest ->
   unpack_I 2 chdr = Some [1; chunk_size] ->
   unpack_I 5 hdr = Some [tile_x; tile_y; tile_w; tile_h; tile_c] ->
   Forall (fun s => s <> []) segs ->
   Z.of_nat (length (concat segs)) = tile_w * tile_h * tile_c * 4 ->
   (length segs < fuel)%nat ->
   process_tile_data_chunk fuel win (set_pipe (hdr :: segs ++ rest) w)
   = Ok true (set_pipe rest w) /\
   render_loop (S fuel) win w = render_loop fuel win (set_pipe rest w)) /\
  (pipe w = chdr :: hdr :: rest ->
   unpack_I 2 chdr = Some [2; chunk_size] ->
   unpack_I 4 hdr = Some [tile_x; tile_y; tile_w; tile_h] ->
   process_tile_highlight_chunk win (set_pipe (hdr :: rest) w) = Ok true (set_pipe rest w) /\
   render_loop (S fuel) win w = render_loop fuel win (set_pipe rest w)) /\
  rendered_pixels (set_pipe rest w) = rendered_pixels w /\
  total_pixels (set_pipe rest w) = total_pixels w /\
  sink (set_pipe rest w) = sink w /\
  progress (set_pipe rest w) = progress w.
Proof.
  intros Hc Hout.
  assert (E : intersect win tile_x tile_y tile_w tile_h = None) by (apply intersect_none; exact Hout).
  split; [exact E|]. split; [|split; [|repeat split]].
  - intros Hp Hu2 Hu5 Hne Hsz Hf.
    assert (Hrun : process_tile_data_chunk fuel win (set_pipe (hdr :: segs ++ rest) w)
                   = Ok true (set_pipe rest w)).
    { rewrite (process_tile_data_chunk_run fuel win _ hdr segs rest
                 tile_x tile_y tile_w tile_h tile_c); auto.
      unfold tile_outcome. rewrite E. reflexivity. }
    split; [exact Hrun|].
    rewrite (render_loop_header fuel win w chdr _ 1 chunk_size Hc Hp Hu2).
    cbn [Z.eqb Pos.eqb]. rewrite (bind_ok _ _ _ _ _ Hrun). reflexivity.
  - intros Hp Hu2 Hu4.
    assert (Hrun : process_tile_highlight_chunk win (set_pipe (hdr :: rest) w)
                   = Ok true (set_pipe rest w)).
    { rewrite (process_tile_highlight_chunk_run win _ hdr rest tile_x tile_y tile_w tile_h);
        auto.
      rewrite E. reflexivity. }
    split; [exact Hrun|].
    rewrite (render_loop_header fuel win w chdr _ 2 chunk_size Hc Hp Hu2).
    cbn [Z.eqb Pos.eqb]. rewrite (bind_ok _ _ _ _ _ Hrun). reflexivity.
Qed.

Lemma outside_tile_is_skipped_witness :
  render_loop 4 window_4x4 (quiet outside_data_stream)
  = render_loop 3 window_4x4 (set_pipe [] (quiet outside_data_stream)) /\
  render_loop 4 window_4x4 (quiet outside_highlight_stream)
  = render_loop 3 window_4x4 (set_pipe [] (quiet outside_highlight_stream)).
Proof.
  split.
  - destruct (outside_tile_is_skipped 3 window_4x4 (quiet outside_data_stream)
                (encode_u32s [1; 36]) (encode_u32s [10; 0; 1; 1; 4])
                [encode_u32s [1; 2]; encode_u32s [3; 4]] [] 36 10 0 1 1 4)
      as (_ & Hdata & _).
    + reflexivity.
    + left. cbn. lia.
    + apply Hdata; try reflexivity.
      * repeat constructor; discriminate.
      * cbn. lia.
  - destruct (outside_tile_is_skipped 3 window_4x4 (quiet outside_highlight_stream)
                (encode_u32s [2; 16]) (encode_u32s [10; 0; 1; 1]) [] [] 16 10 0 1 1 0)
      as (_ & _ & Hhl & _).
    + reflexivity.
    + left. cbn. lia.
    + apply Hhl; reflexivity.
Defined.

(** * The claims on highlights *)

(** C9.  For a clipped highlight rectangle [{x0, y0, x1, y1}] the highlight
    renderer hands exactly 8 segments to the display sink, a horizontal and a
    vertical arm at each of the four corners, each one pixel thick and of the
    bracket color; the horizontal arms are [min(5, x1 - x0 + 1)] long and the
    vertical arms [min(5, y1 - y0 + 1)].  On a 3x3 rectangle every arm is 3
    long. *)
Theorem highlight_draws_eight_arms (rx0 ry0 rx1 ry1 : Z) (w : world) :
  let bw := Z.min 5 (rx1 - rx0 + 1) in
  let bh := Z.min 5 (ry1 - ry0 + 1) in
  exists tlh tlv trh trv blh blv brh brv : commit,
    draw_brackets rx0 ry0 rx1 ry1 w
    = Ok tt (add_commits [tlh; tlv; trh; trv; blh; blv; brh; brv] w) /\
    length [tlh; tlv; trh; trv; blh; blv; brh; brv] = 8%nat /\
    Forall (horizontal bw) [tlh; trh; blh; brh] /\
    Forall (vertical bh) [tlv; trv; blv; brv] /\
    Forall solid [tlh; tlv; trh; trv; blh; blv; brh; brv] /\
    (* top-left, top-right, bottom-left, bottom-right *)
    (cx tlh = rx0 /\ cy tlh = ry1 /\ cx tlv = rx0 /\ cy tlv + bh - 1 = ry1) /\
    (cx trh + bw - 1 = rx1 /\ cy trh = ry1 /\ cx trv = rx1 /\ cy trv + bh - 1 = ry1) /\
    (cx blh = rx0 /\ cy blh = ry0 /\ cx blv = rx0 /\ cy blv = ry0) /\
    (cx brh + bw - 1 = rx1 /\ cy brh = ry0 /\ cx brv = rx1 /\ cy brv = ry0) /\
    (rx1 - rx0 + 1 = 3 -> ry1 - ry0 + 1 = 3 ->
     Forall (fun c => cw c * ch c = 3 /\ length (rect c) = 3%nat)
            [tlh; tlv; trh; trv; blh; blv; brh; brv]).
Proof.
  intros bw bh.
  pose proof (draw_brackets_run rx0 ry0 rx1 ry1 w) as Hrun.
  unfold bracket_commits in Hrun.
  fold (bracket_width rx0 rx1) (bracket_height ry0 ry1) in Hrun.
  change (bracket_width rx0 rx1) with bw in Hrun.
  change (bracket_height ry0 ry1) with bh in Hrun.
  cbv zeta in Hrun.
  do 8 eexists. split; [exact Hrun|].
  assert (Hsolid : forall x y a b n, a * b = n ->
            solid (Commit x y a b (repeat bracket_color (Z.to_nat n)))).
  { intros x y a b n <-. unfold solid. cbn [rect cw ch]. rewrite repeat_length.
    split; [reflexivity|]. apply Forall_forall. intros c Hin.
    symmetry. exact (repeat_spec _ _ _ Hin). }
  split; [reflexivity|].
  split; [repeat constructor|].
  split; [repeat constructor|].
  split; [repeat constructor; apply Hsolid; lia|].
  cbn [cx cy]. repeat split; try lia.
  intros H3x H3y. subst bw bh.
  repeat constructor; cbn [cw ch rect]; rewrite ?repeat_length; lia.
Qed.

Lemma highlight_draws_eight_arms_witness :
  exists cs : list commit,
    draw_brackets 0 1 2 3 (quiet []) = Ok tt (add_commits cs (quiet [])) /\
    length cs = 8%nat /\
    Forall (fun c => cw c * ch c = 3 /\ length (rect c) = 3%nat) cs.
Proof.
  destruct (highlight_draws_eight_arms 0 1 2 3 (quiet []))
    as (c1 & c2 & c3 & c4 & c5 & c6 & c7 & c8 & Hrun & Hlen & _ & _ & _ & _ & _ & _ & _ & H3).
  exists [c1; c2; c3; c4; c5; c6; c7; c8].
  split; [exact Hrun|]. split; [exact Hlen|]. apply H3; reflexivity.
Defined.

(** * The claims on reading the stream *)

(** C10.  For every tile-data chunk the whole payload of
    [w * h * channel_count * 4] bytes is taken from the stream before the tile
    is clipped, however the pipe delivers it: the pipe is left at the byte
    after the payload whether the tile is then drawn or found outside the
    window and dropped. *)
Theorem payload_read_before_clipping (fuel : nat) (win : window) (w : world)
    (hdr : list byte) (p1 : list (list byte)) (tile_x tile_y tile_w tile_h tile_c : Z) :
  no_cancel w ->
  pipe w = hdr :: p1 ->
  unpack_I 5 hdr = Some [tile_x; tile_y; tile_w; tile_h; tile_c] ->
  tile_w * tile_h * tile_c * 4 <= Z.of_nat (length (concat p1)) ->
  (length p1 < fuel)%nat ->
  exists p' : list (list byte),
    concat p' = skipn (Z.to_nat (tile_w * tile_h * tile_c * 4)) (concat p1) /\
    process_tile_data_chunk fuel win w
    = tile_outcome win w p' (firstn (Z.to_nat (tile_w * tile_h * tile_c * 4)) (concat p1))
                   tile_x tile_y tile_w tile_h /\
    option_map pipe (final_world (process_tile_data_chunk fuel win w)) = Some p' /\
    (intersect win tile_x tile_y tile_w tile_h = None ->
     process_tile_data_chunk fuel win w = Ok true (set_pipe p' w)).
Proof.
  intros Hc Hp Hu Hsz Hf.
  destruct (unpack_I_some _ _ _ Hu) as (_ & _ & Hr).
  assert (H0 : 0 <= tile_w * tile_h * tile_c * 4).
  { repeat match goal with H : Forall _ (_ :: _) |- _ => inversion H; clear H; subst end.
    unfold u32 in *. nia. }
  destruct (read_tile_data_exact fuel (tile_w * tile_h * tile_c * 4) [] (set_pipe p1 w))
    as (p' & Hread & Hrest); [exact Hc | cbn [length pipe set_pipe]; lia | exact Hf |].
  cbn [length pipe set_pipe app] in Hread, Hrest. rewrite Z.sub_0_r in Hread, Hrest.
  assert (Hrun : process_tile_data_chunk fuel win w
                 = tile_outcome win w p'
                     (firstn (Z.to_nat (tile_w * tile_h * tile_c * 4)) (concat p1))
                     tile_x tile_y tile_w tile_h).
  { apply (process_tile_data_chunk_payload fuel win w hdr _ p1 p'
             tile_x tile_y tile_w tile_h tile_c); auto.
    rewrite length_firstn. lia. }
  exists p'. split; [exact Hrest|]. split; [exact Hrun|]. split.
  - rewrite Hrun. unfold tile_outcome.
    destruct (intersect win tile_x tile_y tile_w tile_h); [|reflexivity].
    destruct (total_pixels w =? 0); reflexivity.
  - intros E. rewrite Hrun. unfold tile_outcome. rewrite E. reflexivity.
Qed.

Lemma payload_read_before_clipping_witness :
  exists p' : list (list byte),
    concat p' = encode_u32s [2; 16] ++ encode_u32s [0; 0; 3; 3] /\
    process_tile_data_chunk 4 window_4x4 (quiet straddling_stream)
    = Ok true (set_pipe p' (quiet straddling_stream)).
Proof.
  destruct (payload_read_before_clipping 4 window_4x4 (quiet straddling_stream)
              (encode_u32s [10; 0; 1; 1; 4])
              [encode_u32s [1; 2; 3]; encode_u32s [4] ++ encode_u32s [2; 16];
               encode_u32s [0; 0; 3; 3]] 10 0 1 1 4)
    as (p' & Hrest & _ & _ & Hout).
  - reflexivity.
  - reflexivity.
  - reflexivity.
  - cbn. lia.
  - cbn. lia.
  - exists p'. split; [exact Hrest | apply Hout; reflexivity].
Defined.

(** C2.  The stream closes in the middle of a tile-data payload: the header
    declares a 4x4 tile of one channel and 32 of its 64 bytes arrive.  When
    nobody cancels, the render never returns, whatever the fuel: it neither
    stops the loop nor kills the child. *)
Theorem truncated_payload_never_returns :
  forall fuel : nat,
    render_project_file fuel window_4x4 1 (quiet truncated_stream) = Spin.
Proof.
  intros fuel. unfold render_project_file.
  erewrite bind_ok by reflexivity.
  apply bind_spin.
  apply (render_loop_truncated_payload window_4x4 _ (encode_u32s [1; 84])
           (encode_u32s [0; 0; 4; 4; 1]) [encode_u32s [1; 2; 3; 4; 5; 6; 7; 8]]
           84 0 0 4 4 1); try reflexivity.
Qed.

(** The same stream with a cancellation at the sixth poll: the loop spins on
    the closed pipe until then, draws nothing and kills the child. *)
Example truncated_payload_waits_for_cancel :
  render_project_file 8 window_4x4 1
    (World truncated_stream (Oracle [false; false; false; false; false] true) 0 0 [] [] false)
  = Ok tt (World [] (Oracle [] true) 0 16 [] [] true).
Proof. vm_compute. reflexivity. Qed.

(** C1.  The 8-byte chunk header arrives in two deliveries of 5 and 3 bytes.
    The header read is a single [os.read]: it returns the 5 bytes, which go to
    [struct.unpack] and make it raise; the render ends there, nothing is drawn
    and the child is not killed.  The same bytes in one delivery draw the
    highlight. *)
Theorem short_header_is_not_completed :
  concat split_header_stream = concat whole_header_stream /\
  (exists data w',
     os_read 8 (quiet split_header_stream) = Ok data w' /\ length data = 5%nat) /\
  (forall fuel : nat,
     exists w', render_project_file (S fuel) window_4x4 1 (quiet split_header_stream)
                = Raise StructError w' /\ sink w' = [] /\ killed w' = false) /\
  (exists w', render_project_file 3 window_4x4 1 (quiet whole_header_stream) = Ok tt w' /\
              sink w' = bracket_commits 0 1 2 3 /\ killed w' = true).
Proof.
  split; [reflexivity|]. split; [|split].
  - do 2 eexists. split; [vm_compute; reflexivity | reflexivity].
  - intros fuel. eexists. split; [vm_compute; reflexivity|]. split; reflexivity.
  - eexists. split; [vm_compute; reflexivity|]. split; reflexivity.
Qed.

(** C6.  An unknown chunk of type 99 and size 12 whose payload arrives in two
    deliveries of 6 bytes.  The skip is a single [os.read]: it takes 6 bytes,
    the other 6 are read as the next chunk header and [struct.unpack] raises.
    With the 12 bytes in one delivery the chunk is skipped and the highlight
    after it is drawn. *)
Theorem unknown_chunk_short_skip :
  concat unknown_split_stream = concat unknown_whole_stream /\
  (forall fuel : nat,
     exists w', render_project_file (S (S fuel)) window_4x4 1 (quiet unknown_split_stream)
                = Raise StructError w' /\
                pipe w' = [encode_u32s [2; 16]; encode_u32s [0; 0; 3; 3]] /\
                sink w' = [] /\ killed w' = false) /\
  (exists w', render_project_file 4 window_4x4 1 (quiet unknown_whole_stream) = Ok tt w' /\
              sink w' = bracket_commits 0 1 2 3 /\ killed w' = true).
Proof.
  split; [reflexivity|]. split.
  - intros fuel. eexists. split; [vm_compute; reflexivity|]. repeat split; reflexivity.
  - eexists. split; [vm_compute; reflexivity|]. split; reflexivity.
Qed.

(** * The claims on the pixels of a tile *)

(** C3, as the code has it.  A tile-data chunk of 4 channels whose tile lies
    inside the render window is committed with its rows in reversed order:
    destination row [r] is source row [h - 1 - r], so destination row 0 is the
    last row of the tile.  The commit is made at [(tile_x - min_x,
    max_y - (tile_y + h - 1))] with the size of the tile; the chunk makes no
    other commit, and it makes this one as soon as the tile has a pixel. *)
Theorem inside_tile_rows_reversed (fuel : nat) (win : window) (w : world)
    (hdr : list byte) (segs rest : list (list byte)) (tile_x tile_y tile_w tile_h : Z) :
  no_cancel w ->
  pipe w = hdr :: segs ++ rest ->
  unpack_I 5 hdr = Some [tile_x; tile_y; tile_w; tile_h; 4] ->
  Forall (fun s => s <> []) segs ->
  Z.of_nat (length (concat segs)) = tile_w * tile_h * 4 * 4 ->
  (length segs < fuel)%nat ->
  min_x win <= tile_x -> min_y win <= tile_y ->
  tile_x + tile_w - 1 <= max_x win -> tile_y + tile_h - 1 <= max_y win ->
  let floats := floats_of (concat segs) in
  let c := Commit (tile_x - min_x win) (max_y win - (tile_y + tile_h - 1)) tile_w tile_h
                  (rows_reversed floats tile_w tile_h 4) in
  length floats = Z.to_nat (tile_w * tile_h * 4) /\
  exists (w' : world) (cs : list commit),
    final_world (process_tile_data_chunk fuel win w) = Some w' /\
    sink w' = sink w ++ cs /\
    (cs = [] \/ cs = [c]) /\
    (0 < tile_w -> 0 < tile_h ->
     cs = [c] /\
     (total_pixels w <> 0 ->
      process_tile_data_chunk fuel win w
      = Ok true (drawn c (tile_w * tile_h) (set_pipe rest w)))).
Proof.
  intros Hc Hp Hu Hne Hsz Hf Hx Hy Hx' Hy' floats c.
  split.
  { apply (fromstring_floats_of (concat segs) (Z.to_nat (tile_w * tile_h * 4))). lia. }
  rewrite (process_tile_data_chunk_run fuel win w hdr segs rest tile_x tile_y tile_w tile_h 4)
    by assumption.
  unfold tile_outcome.
  destruct (intersect win tile_x tile_y tile_w tile_h) as [i|] eqn:E.
  - assert (Hcommit : tile_commit win tile_x tile_y tile_w i floats = c).
    { destruct (intersect_some _ _ _ _ _ _ E) as (_ & H0 & H1 & H2 & H3).
      unfold tile_commit, x0, y0, take_x, take_y, skip_x, skip_y. subst c.
      rewrite H0, H1, H2, H3.
      rewrite (Z.max_l tile_x), (Z.max_l tile_y), (Z.min_l (tile_x + tile_w - 1)),
        (Z.min_l (tile_y + tile_h - 1)) by lia.
      replace (tile_x - tile_x) with 0 by lia. replace (tile_y - tile_y) with 0 by lia.
      replace (tile_x + tile_w - 1 - tile_x + 1) with tile_w by lia.
      replace (tile_y + tile_h - 1 - tile_y + 1) with tile_h by lia.
      rewrite extract_pix_whole. reflexivity. }
    fold floats. rewrite Hcommit.
    destruct (intersect_inside_take _ _ _ _ _ i Hx Hy Hx' Hy' E) as (-> & ->).
    destruct (Z.eqb_spec (total_pixels w) 0) as [Ht|Ht];
      eexists; exists [c]; (split; [reflexivity|]); (split; [reflexivity|]);
      (split; [right; reflexivity|]); intros _ _; (split; [reflexivity|]);
      intros Ht'; [contradiction | reflexivity].
  - eexists. exists []. split; [reflexivity|]. split; [cbn; now rewrite app_nil_r|].
    split; [left; reflexivity|]. intros Hw Hh.
    rewrite intersect_inside in E by assumption. discriminate.
Qed.

Lemma inside_tile_rows_reversed_witness :
  process_tile_data_chunk 2 window_4x4
    (set_total_pixels 16 (quiet (tl four_channel_stream)))
  = Ok true
      (drawn (Commit 0 2 1 2 [[f20; f20; f20; f20]; [f10; f10; f10; f10]]) 2
             (set_pipe [] (set_total_pixels 16 (quiet (tl four_channel_stream))))).
Proof.
  destruct (inside_tile_rows_reversed 2 window_4x4
              (set_total_pixels 16 (quiet (tl four_channel_stream)))
              (encode_u32s [0; 0; 1; 2; 4])
              [encode_u32s [f10; f10; f10; f10; f20; f20; f20; f20]] [] 0 0 1 2)
    as (_ & w' & cs & _ & _ & _ & Hdrawn).
  - reflexivity.
  - reflexivity.
  - reflexivity.
  - repeat constructor. discriminate.
  - reflexivity.
  - cbn. lia.
  - cbn. lia.
  - cbn. lia.
  - cbn. lia.
  - cbn. lia.
  - apply Hdrawn; [lia | lia | discriminate].
Defined.

(** C3, as stated, fails on a tile of one channel: the code cuts the floats
    into groups of 4 whatever the channel count.  For the 1x2 tile with the
    values 10 and 20 the first row of the committed buffer is empty and the
    second holds 10 and 20: not 20 then 10. *)
Lemma one_channel_rows_not_reversed :
  exists w' : world,
    render_project_file 3 window_4x4 1 (quiet one_channel_stream) = Ok tt w' /\
    map rect (sink w') = [[ []; [f10; f20] ]] /\
    map rect (sink w') <> [[ [f20]; [f10] ]].
Proof.
  eexists. split; [vm_compute; reflexivity|]. split; [reflexivity | discriminate].
Qed.

(** * The claims on progress *)

(** C4.  The stream is a sequence of tile-data chunks whose tiles lie inside
    the render window and do not overlap, and [total_pixels] is the width of
    the window times its height times the pass count.  Then the render ends
    with [rendered_pixels] equal to the sum of the areas of the tiles; the
    values of [rendered_pixels] it reported never decrease and lie between 0
    and that sum; and no reported fraction exceeds 1. *)
Theorem progress_accounting (fuel : nat) (win : window) (renderer_passes : Z)
    (ts : list tile_chunk) :
  min_x win <= max_x win -> min_y win <= max_y win ->
  1 <= renderer_passes ->
  Forall well_formed ts -> Forall (inside win) ts -> non_overlapping ts ->
  (length (stream_of ts) < fuel)%nat ->
  let total := (max_x win - min_x win + 1) * (max_y win - min_y win + 1) * renderer_passes in
  exists (w' : world) (rs : list Z),
    render_project_file fuel win renderer_passes (quiet (stream_of ts)) = Ok tt w' /\
    total_pixels w' = total /\
    rendered_pixels w' = sum_areas ts /\
    progress w' = map (fraction total) rs /\
    StronglySorted Z.le rs /\
    Forall (fun r => 0 <= r <= sum_areas ts) rs /\
    Forall (fun q => (q <= 1)%Q) (progress w') /\
    killed w' = true.
Proof.
  intros Hx Hy Hpass Hwf Hin Hno Hf total.
  pose proof (sum_areas_bound win ts Hx Hy Hwf Hin Hno) as Hbound.
  assert (Htotal : 0 < total /\ sum_areas ts <= total).
  { subst total.
    assert (Hwh : 1 <= (max_x win - min_x win + 1) * (max_y win - min_y win + 1)) by nia.
    revert Hbound Hwh.
    generalize ((max_x win - min_x win + 1) * (max_y win - min_y win + 1)) as a.
    intros a Hbound Hwh. split; nia. }
  destruct (render_loop_tiles win ts fuel
              (set_total_pixels total (set_rendered_pixels 0 (quiet (stream_of ts)))))
    as (cs & rs & Hrun & Hrs & Hsorted & Hlen);
    [ reflexivity | reflexivity | cbn [total_pixels set_total_pixels]; lia
    | exact Hwf | exact Hin | exact Hf |].
  cbn [brk rendered_pixels total_pixels sink progress killed set_total_pixels
       set_rendered_pixels quiet app] in Hrun, Hrs.
  rewrite Z.add_0_l in Hrun.
  eexists. exists rs. split.
  - unfold render_project_file.
    erewrite bind_ok by reflexivity.
    erewrite bind_ok by exact Hrun. reflexivity.
  - cbn [total_pixels rendered_pixels progress killed set_killed].
    repeat split; try assumption.
    apply Forall_map. eapply Forall_impl; [|exact Hrs]. cbv beta. intros r Hr.
    apply fraction_le_1; lia.
Qed.

Lemma progress_accounting_witness :
  exists w' : world,
    render_project_file 8 window_4x4 1 (quiet (stream_of two_tiles)) = Ok tt w' /\
    rendered_pixels w' = 8 /\ total_pixels w' = 16 /\
    Forall (fun q => (q <= 1)%Q) (progress w').
Proof.
  destruct (progress_accounting 8 window_4x4 1 two_tiles)
    as (w' & rs & Hrun & Htotal & Hrendered & _ & _ & _ & Hle & _).
  - cbn. lia.
  - cbn. lia.
  - lia.
  - repeat constructor; try (unfold u32; cbn; lia); try discriminate.
  - repeat constructor; cbn; lia.
  - cbn. repeat split; repeat constructor.
    intros (x & y & (Hx1 & Hy1) & (Hx2 & Hy2)). cbn in *. lia.
  - cbn. lia.
  - exists w'. repeat split; assumption.
Defined.

(** * Beyond the claims: what every run keeps *)

Section Runs.

Variable win : window.

Lemma after_refl (w : world) : after win w w.
Proof.
  unfold after. repeat split; try reflexivity; try lia;
    exists []; rewrite ?app_nil_r; reflexivity.
Qed.

Lemma after_trans (w1 w2 w3 : world) : after win w1 w2 -> after win w2 w3 -> after win w1 w3.
Proof.
  intros (Ht & Hk & Hf & Hp & (b1 & Hb1) & (c1 & Hc1) & (q1 & Hq1) & Hr)
         (Ht' & Hk' & Hf' & Hp' & (b2 & Hb2) & (c2 & Hc2) & (q2 & Hq2) & Hr').
  unfold after. repeat split; try congruence; try lia.
  - exists (b1 ++ b2). rewrite Hb1, Hb2, app_assoc. reflexivity.
  - exists (c1 ++ c2). rewrite Hc2, Hc1, app_assoc. reflexivity.
  - exists (q1 ++ q2). rewrite Hq2, Hq1, app_assoc. reflexivity.
Qed.

Lemma pipe_read_concat (n : Z) : forall p : list (list byte),
  fst (pipe_read n p) ++ concat (snd (pipe_read n p)) = concat p.
Proof.
  induction p as [|seg rest IH]; [reflexivity|].
  destruct seg as [|b seg]; [exact IH|].
  cbn [pipe_read]. destruct (Z.of_nat (length (b :: seg)) <=? n); cbn [fst snd concat].
  - reflexivity.
  - rewrite app_assoc, firstn_skipn. reflexivity.
Qed.

Ltac unchanged_lists :=
  try (exists []; rewrite ?app_nil_r; reflexivity); try (eexists; reflexivity).

Lemma os_read_after (n : Z) (w : world) :
  exists data w', os_read n w = Ok data w' /\ after win w w' /\ brk w' = brk w /\
                  concat (pipe w) = data ++ concat (pipe w').
Proof.
  unfold os_read. destruct (n <=? 0).
  - exists [], w. split; [reflexivity|]. split; [apply after_refl|]. split; reflexivity.
  - pose proof (pipe_read_concat n (pipe w)) as Hcat.
    destruct (pipe_read n (pipe w)) as [data p]. cbn [fst snd] in Hcat.
    exists data, (set_pipe p w). split; [reflexivity|].
    split; [|split; [reflexivity | cbn; now rewrite Hcat]].
    unfold after. cbn. repeat split; try reflexivity; try lia; unchanged_lists.
    exists data. now rewrite Hcat.
Qed.

Lemma test_break_after (w : world) :
  exists b w', test_break w = Ok b w' /\ after win w w' /\ pipe w' = pipe w /\
               (b = false -> final (brk w) = true ->
                (length (pending (brk w')) < length (pending (brk w)))%nat).
Proof.
  unfold test_break, ask. destruct w as [p [pend fin] r t s pr k]. cbn.
  destruct pend as [|b pend]; eexists; eexists; (split; [reflexivity|]);
    (split; [|split; [reflexivity|]]).
  - apply after_refl.
  - cbn. intros H1 H2. congruence.
  - unfold after. cbn. repeat split; try reflexivity; try lia; unchanged_lists.
  - cbn. lia.
Qed.

Lemma emit_after (x y a b : Z) (pix : list (list Z)) (w : world) :
  after win w (add_commit (Commit x y a b pix) w).
Proof.
  unfold after. cbn. repeat split; try reflexivity; try lia; unchanged_lists.
Qed.

Lemma add_rendered_after (n : Z) (w : world) :
  (min_x win <= max_x win -> min_y win <= max_y win -> 0 <= n) ->
  after win w (set_rendered_pixels (rendered_pixels w + n) w).
Proof.
  intros Hn. unfold after. cbn. repeat split; try reflexivity; try lia; unchanged_lists.
Qed.

Lemma update_progress_after (w : world) :
  post (update_progress w) (fun _ w' => after win w w')
       (fun e w' => e = ZeroDivisionError /\ w' = w /\ total_pixels w = 0) False.
Proof.
  unfold update_progress. destruct (Z.eqb_spec (total_pixels w) 0) as [H0|H0]; cbn [post].
  - repeat split. exact H0.
  - unfold after. cbn. repeat split; try reflexivity; try lia; unchanged_lists.
Qed.

Lemma draw_brackets_after (rx0 ry0 rx1 ry1 : Z) (w : world) :
  after win w (add_commits (bracket_commits rx0 ry0 rx1 ry1) w).
Proof.
  unfold after. cbn. repeat split; try reflexivity; try lia; unchanged_lists.
Qed.

(** The payload loop returns, unless it waits for a cancellation that does not
    come within its fuel; it never collects more than it was asked for. *)
Lemma read_tile_data_after : forall (fuel : nat) (tile_size : Z) (tile_data : list byte)
    (w : world),
  post (read_tile_data fuel tile_size tile_data w)
       (fun data w' =>
          after win w w' /\
          (Z.of_nat (length tile_data) <= tile_size -> Z.of_nat (length data) <= tile_size))
       (fun _ _ => False)
       (~ cancelled_within fuel w).
Proof.
  induction fuel as [|fuel IH]; intros tile_size tile_data w.
  { cbn. unfold cancelled_within. lia. }
  cbn [read_tile_data].
  destruct (Z.ltb_spec (Z.of_nat (length tile_data)) tile_size) as [Hlt|Hge].
  2:{ cbn [ret post]. split; [apply after_refl | auto]. }
  destruct (test_break_after w) as (b & w1 & Hb & Ha1 & Hp1 & Hdec).
  rewrite (bind_ok _ _ _ _ _ Hb).
  destruct b.
  { cbn [ret post]. split; [exact Ha1 | auto]. }
  destruct (os_read_after (tile_size - Z.of_nat (length tile_data)) w1)
    as (d & w2 & Hd & Ha2 & Hbrk2 & Hcat).
  rewrite (bind_ok _ _ _ _ _ Hd).
  assert (Hdlen : Z.of_nat (length d) <= tile_size - Z.of_nat (length tile_data)).
  { revert Hd. unfold os_read.
    destruct (Z.leb_spec (tile_size - Z.of_nat (length tile_data)) 0); [lia|].
    destruct (pipe_read_spec (tile_size - Z.of_nat (length tile_data)) (pipe w1)) as (_ & Hl & _);
      [lia|].
    destruct (pipe_read _ (pipe w1)) as [d' p']. cbn [fst] in Hl.
    intros Hd. injection Hd as <- _. exact Hl. }
  specialize (IH tile_size (tile_data ++ d) w2).
  destruct (read_tile_data fuel tile_size (tile_data ++ d) w2) as [data w3| |]; cbn [post] in *.
  - destruct IH as (Ha3 & Hlen). split.
    + exact (after_trans _ _ _ Ha1 (after_trans _ _ _ Ha2 Ha3)).
    + intros _. apply Hlen. rewrite length_app. lia.
  - exact IH.
  - intros (Hfin & Hpend). apply IH. unfold cancelled_within.
    destruct Ha1 as (_ & _ & Hf1 & _). rewrite Hbrk2. split; [congruence|].
    specialize (Hdec eq_refl Hfin). lia.
Qed.

Lemma cancelled_within_brk (fuel : nat) (w w' : world) :
  final (brk w') = final (brk w) ->
  (length (pending (brk w')) <= length (pending (brk w)))%nat ->
  cancelled_within fuel w -> cancelled_within fuel w'.
Proof. unfold cancelled_within. intros Hf Hp (H1 & H2). split; [congruence | lia]. Qed.

Lemma cancelled_within_after (fuel : nat) (w w' : world) :
  after win w w' -> cancelled_within fuel w -> cancelled_within fuel w'.
Proof.
  intros (_ & _ & Hf & Hp & _). apply cancelled_within_brk; assumption.
Qed.

(** One tile-data chunk on any pipe and any oracle. *)
Lemma process_tile_data_chunk_after (fuel : nat) (w : world) :
  post (process_tile_data_chunk fuel win w)
       (fun _ w' => after win w w')
       (fun _ w' => after win w w')
       (~ cancelled_within fuel w).
Proof.
  unfold process_tile_data_chunk.
  destruct (os_read_after (5 * 4) w) as (hdr & w1 & Hhdr & Ha1 & _).
  rewrite (bind_ok _ _ _ _ _ Hhdr).
  unfold struct_unpack.
  destruct (unpack_I 5 hdr) as [th|] eqn:Hu; cbn [lift_option].
  2:{ cbn. exact Ha1. }
  rewrite (bind_ok _ _ _ w1 th) by reflexivity.
  destruct (unpack_I_some _ _ _ Hu) as (Hlen & _ & Hr).
  destruct th as [|tile_x [|tile_y [|tile_w [|tile_h [|tile_c [|? ?]]]]]]; try discriminate.
  cbn [item nth].
  pose proof (read_tile_data_after fuel (tile_w * tile_h * tile_c * 4) [] w1) as Hread.
  unfold bind at 1.
  destruct (read_tile_data fuel (tile_w * tile_h * tile_c * 4) [] w1) as [data w2| |];
    cbn [post] in Hread |- *.
  2:{ contradiction. }
  2:{ intros Hcan. apply Hread. exact (cancelled_within_after _ _ _ Ha1 Hcan). }
  destruct Hread as (Ha2 & _).
  destruct (test_break_after w2) as (b & w3 & Hb & Ha3 & _).
  rewrite (bind_ok _ _ _ _ _ Hb).
  assert (Ha : after win w w3)
    by exact (after_trans _ _ _ Ha1 (after_trans _ _ _ Ha2 Ha3)).
  destruct b; [exact Ha|].
  destruct (intersect win tile_x tile_y tile_w tile_h) as [i|] eqn:E; [|exact Ha].
  unfold array_fromstring.
  destruct (fromstring data) as [floats|]; cbn [lift_option]; [|exact Ha].
  rewrite (bind_ok _ _ _ w3 floats) by reflexivity.
  unfold bind at 1, emit. unfold bind at 1, add_rendered_pixels.
  set (w4 := add_commit _ w3).
  set (w5 := set_rendered_pixels _ w4).
  assert (Ha5 : after win w w5).
  { apply (after_trans _ _ _ Ha). apply (after_trans _ w4); [apply emit_after|].
    apply add_rendered_after. intros Hx Hy.
    assert (Hw : 0 <= tile_w /\ 0 <= tile_h).
    { repeat match goal with H : Forall _ (_ :: _) |- _ => inversion H; clear H; subst end.
      unfold u32 in *. lia. }
    destruct (take_nonneg win tile_x tile_y tile_w tile_h i Hx Hy (proj1 Hw) (proj2 Hw) E).
    nia. }
  pose proof (update_progress_after w5) as Hup.
  unfold bind. destruct (update_progress w5) as [[] w6|e w6|]; cbn [post] in Hup |- *.
  - exact (after_trans _ _ _ Ha5 Hup).
  - destruct Hup as (_ & -> & _). exact Ha5.
  - contradiction.
Qed.

(** One tile-highlight chunk on any pipe: it always ends. *)
Lemma process_tile_highlight_chunk_after (w : world) :
  post (process_tile_highlight_chunk win w)
       (fun _ w' => after win w w' /\ rendered_pixels w' = rendered_pixels w /\
                    progress w' = progress w)
       (fun e w' => e = StructError /\ after win w w' /\ sink w' = sink w)
       False.
Proof.
  unfold process_tile_highlight_chunk.
  destruct (os_read_after (4 * 4) w) as (hdr & w1 & Hhdr & Ha1 & _).
  rewrite (bind_ok _ _ _ _ _ Hhdr).
  assert (Hsame : rendered_pixels w1 = rendered_pixels w /\ progress w1 = progress w /\
                  sink w1 = sink w).
  { revert Hhdr. unfold os_read. destruct (4 * 4 <=? 0).
    - intros H. injection H as _ <-. auto.
    - destruct (pipe_read (4 * 4) (pipe w)). intros H. injection H as _ <-. auto. }
  destruct Hsame as (Hr & Hp & Hs).
  unfold struct_unpack.
  destruct (unpack_I 4 hdr) as [th|] eqn:Hu; cbn [lift_option].
  2:{ cbn. auto. }
  rewrite (bind_ok _ _ _ w1 th) by reflexivity.
  destruct (intersect win (item th 0) (item th 1) (item th 2) (item th 3)) as [i|].
  - erewrite bind_ok by apply draw_brackets_run. cbn [ret post].
    split; [|split; [exact Hr | exact Hp]].
    exact (after_trans _ _ _ Ha1 (draw_brackets_after _ _ _ _ w1)).
  - cbn [ret post]. auto.
Qed.

(** The loop on any pipe and any oracle. *)
Lemma render_loop_after : forall (fuel : nat) (w : world),
  post (render_loop fuel win w)
       (fun _ w' => after win w w')
       (fun _ w' => after win w w')
       (~ cancelled_within fuel w).
Proof.
  induction fuel as [|fuel IH]; intros w.
  { cbn. unfold cancelled_within. lia. }
  cbn [render_loop].
  destruct (test_break_after w) as (b & w1 & Hb & Ha1 & _ & Hdec).
  rewrite (bind_ok _ _ _ _ _ Hb).
  destruct b; [exact Ha1|].
  assert (Hcan : cancelled_within (S fuel) w -> cancelled_within fuel w1).
  { intros (Hf & Hp). unfold cancelled_within.
    destruct Ha1 as (_ & _ & Hf1 & _). split; [congruence|].
    specialize (Hdec eq_refl Hf). lia. }
  destruct (os_read_after (2 * 4) w1) as (chdr & w2 & Hchdr & Ha2 & _).
  rewrite (bind_ok _ _ _ _ _ Hchdr).
  assert (Ha : after win w w2) by exact (after_trans _ _ _ Ha1 Ha2).
  destruct chdr as [|c0 chdr]; [exact Ha|].
  unfold struct_unpack.
  destruct (unpack_I 2 (c0 :: chdr)) as [ch|]; cbn [lift_option]; [|exact Ha].
  rewrite (bind_ok _ _ _ w2 ch) by reflexivity.
  assert (Hnext : forall w3, after win w2 w3 ->
            post (render_loop fuel win w3) (fun _ w' => after win w w')
                 (fun _ w' => after win w w') (~ cancelled_within (S fuel) w)).
  { intros w3 Ha3. specialize (IH w3).
    destruct (render_loop fuel win w3) as [[] w4|e w4|]; cbn [post] in IH |- *.
    - exact (after_trans _ _ _ Ha (after_trans _ _ _ Ha3 IH)).
    - exact (after_trans _ _ _ Ha (after_trans _ _ _ Ha3 IH)).
    - intros Hc. apply IH.
      exact (cancelled_within_after _ _ _ Ha3 (cancelled_within_after _ _ _ Ha2 (Hcan Hc))). }
  destruct (item ch 0 =? 1).
  - pose proof (process_tile_data_chunk_after fuel w2) as Hchunk.
    unfold bind at 1.
    destruct (process_tile_data_chunk fuel win w2) as [continue w3|e w3|];
      cbn [post] in Hchunk |- *.
    + destruct continue; [apply Hnext; exact Hchunk|].
      cbn [ret post]. exact (after_trans _ _ _ Ha Hchunk).
    + exact (after_trans _ _ _ Ha Hchunk).
    + intros Hc. apply Hchunk. exact (cancelled_within_after _ _ _ Ha2 (Hcan Hc)).
  - destruct (item ch 0 =? 2).
    + pose proof (process_tile_highlight_chunk_after w2) as Hchunk.
      unfold bind at 1.
      destruct (process_tile_highlight_chunk win w2) as [continue w3|e w3|];
        cbn [post] in Hchunk |- *.
      * destruct Hchunk as (Ha3 & _).
        destruct continue; [apply Hnext; exact Ha3|].
        cbn [ret post]. exact (after_trans _ _ _ Ha Ha3).
      * destruct Hchunk as (_ & Ha3 & _). exact (after_trans _ _ _ Ha Ha3).
      * contradiction.
    + destruct (os_read_after (item ch 1) w2) as (d & w3 & Hd & Ha3 & _).
      rewrite (bind_ok _ _ _ _ _ Hd). apply Hnext. exact Ha3.
Qed.

End Runs.

(** X1.  Whatever the stream carries and whatever [test_break()] answers, a run
    of the loop that ends, by return or by exception, has taken its bytes from
    the front of the pipe in order, has only appended to the display sink and to
    the reported fractions, and has left [total_pixels] as it was. *)
Theorem render_loop_only_consumes_and_appends (fuel : nat) (win : window) (w w' : world) :
  final_world (render_loop fuel win w) = Some w' ->
  total_pixels w' = total_pixels w /\
  (exists consumed, concat (pipe w) = consumed ++ concat (pipe w')) /\
  (exists cs, sink w' = sink w ++ cs) /\
  (exists qs, progress w' = progress w ++ qs).
Proof.
  intros Hfin. pose proof (render_loop_after win fuel w) as Hpost.
  destruct (render_loop fuel win w) as [[] w1|e w1|]; cbn [final_world post] in *;
    try discriminate; injection Hfin as ->;
    destruct Hpost as (Ht & _ & _ & _ & Hb & Hs & Hq & _); auto.
Qed.

Lemma render_loop_only_consumes_and_appends_witness :
  exists w' : world,
    final_world (render_loop 4 window_4x4 (quiet unknown_split_stream)) = Some w' /\
    total_pixels w' = 0 /\
    (exists consumed, concat unknown_split_stream = consumed ++ concat (pipe w')) /\
    (exists cs, sink w' = [] ++ cs) /\
    (exists qs, progress w' = [] ++ qs).
Proof.
  eexists. split; [vm_compute; reflexivity|].
  refine (render_loop_only_consumes_and_appends 4 window_4x4 (quiet unknown_split_stream) _ _).
  vm_compute. reflexivity.
Defined.

(** X2.  With a render window that is not empty, [rendered_pixels] never goes
    down over a run of the loop: tiles may overlap, repeat or be clipped, each
    one adds the area of what is taken from it, which is not negative. *)
Theorem rendered_pixels_never_decrease (fuel : nat) (win : window) (w w' : world) :
  min_x win <= max_x win -> min_y win <= max_y win ->
  final_world (render_loop fuel win w) = Some w' ->
  rendered_pixels w <= rendered_pixels w'.
Proof.
  intros Hx Hy Hfin. pose proof (render_loop_after win fuel w) as Hpost.
  destruct (render_loop fuel win w) as [[] w1|e w1|]; cbn [final_world post] in *;
    try discriminate; injection Hfin as ->;
    destruct Hpost as (_ & _ & _ & _ & _ & _ & _ & Hr); auto.
Qed.

Lemma rendered_pixels_never_decrease_witness :
  exists w' : world,
    final_world (render_loop 8 window_4x4 (set_total_pixels 16 (quiet (stream_of two_tiles))))
    = Some w' /\
    0 <= rendered_pixels w'.
Proof.
  eexists. split; [vm_compute; reflexivity|].
  refine (rendered_pixels_never_decrease 8 window_4x4
            (set_total_pixels 16 (quiet (stream_of two_tiles))) _ _ _ _).
  - cbn. lia.
  - cbn. lia.
  - vm_compute. reflexivity.
Defined.



(** X4.  The child is killed on every return of the render and on no
    exception: [process.kill()] comes after the loop, outside any [finally],
    so a render that raises leaves the kill flag as it found it. *)
Theorem kill_only_on_return (fuel : nat) (win : window) (renderer_passes : Z) (w : world) :
  post (render_project_file fuel win renderer_passes w)
       (fun _ w' => killed w' = true)
       (fun _ w' => killed w' = killed w)
       True.
Proof.
  unfold render_project_file.
  erewrite bind_ok by reflexivity.
  set (w0 := set_total_pixels _ _).
  pose proof (render_loop_after win fuel w0) as Hpost.
  unfold bind. destruct (render_loop fuel win w0) as [[] w1|e w1|]; cbn [post] in Hpost |- *.
  - reflexivity.
  - destruct Hpost as (_ & Hk & _). exact Hk.
  - exact I.
Qed.

(** * Beyond the claims: cancellation *)

Lemma silent_refl (w : world) : silent w w.
Proof. unfold silent. auto. Qed.

Lemma silent_trans (w1 w2 w3 : world) : silent w1 w2 -> silent w2 w3 -> silent w1 w3.
Proof. unfold silent. intuition congruence. Qed.

Lemma os_read_silent (n : Z) (w : world) :
  exists data w', os_read n w = Ok data w' /\ silent w w' /\ brk w' = brk w /\
                  concat (pipe w) = data ++ concat (pipe w') /\
                  (0 < n -> Z.of_nat (length data) <= n).
Proof.
  unfold os_read. destruct (Z.leb_spec n 0) as [Hn|Hn].
  - exists [], w. repeat split; try reflexivity. lia.
  - pose proof (pipe_read_concat n (pipe w)) as Hcat.
    destruct (pipe_read_spec n (pipe w) Hn) as (_ & Hlen & _).
    destruct (pipe_read n (pipe w)) as [data p]. cbn [fst snd] in Hcat, Hlen.
    exists data, (set_pipe p w). repeat split; try reflexivity.
    + cbn. now rewrite Hcat.
    + intros _. exact Hlen.
Qed.





(** * Beyond the claims: clipped tiles *)

(** X6.  The rectangle committed for a tile-data chunk lies in the render
    window and in the tile: in window space it starts at or after [(0, 0)] and
    ends within the width and height of the window, and the rows and columns
    skipped and taken stay within the tile.  With a window that is not empty
    and a tile of at least one pixel, at least one pixel is taken. *)
Theorem commit_lies_in_window (win : window) (tile_x tile_y tile_w tile_h : Z)
    (i : intersection) (floats : list Z) :
  intersect win tile_x tile_y tile_w tile_h = Some i ->
  let c := tile_commit win tile_x tile_y tile_w i floats in
  (0 <= cx c /\ cx c + cw c <= max_x win - min_x win + 1 /\
   0 <= cy c /\ cy c + ch c <= max_y win - min_y win + 1) /\
  (0 <= skip_x i tile_x /\ skip_x i tile_x + take_x i <= tile_w /\
   0 <= skip_y i tile_y /\ skip_y i tile_y + take_y i <= tile_h) /\
  (min_x win <= max_x win -> 1 <= tile_w -> 1 <= cw c) /\
  (min_y win <= max_y win -> 1 <= tile_h -> 1 <= ch c).
Proof.
  intros E c. destruct (intersect_some _ _ _ _ _ _ E) as (Hin & H0 & H1 & H2 & H3).
  subst c. unfold tile_commit, x0, y0, take_x, take_y, skip_x, skip_y. cbn [cx cy cw ch].
  repeat split; lia.
Qed.

Lemma commit_lies_in_window_witness :
  let win := Window 1 1 3 3 in
  let i := Intersection 2 1 3 2 in
  let c := tile_commit win 2 0 4 i [] in
  (0 <= cx c /\ cx c + cw c <= 3 /\ 0 <= cy c /\ cy c + ch c <= 3) /\
  (0 <= skip_x i 2 /\ skip_x i 2 + take_x i <= 4 /\
   0 <= skip_y i 0 /\ skip_y i 0 + take_y i <= 3) /\
  (1 <= 3 -> 1 <= 4 -> 1 <= cw c) /\
  (1 <= 3 -> 1 <= 3 -> 1 <= ch c).
Proof.
  exact (commit_lies_in_window (Window 1 1 3 3) 2 0 4 3 (Intersection 2 1 3 2) [] eq_refl).
Defined.

(** Where an arm of a bracket lies. *)
Lemma bracket_commits_inside (rx0 ry0 rx1 ry1 : Z) :
  rx0 <= rx1 -> ry0 <= ry1 ->
  Forall (fun c => (rx0 <= cx c /\ cx c + cw c - 1 <= rx1 /\ 1 <= cw c) /\
                   (ry0 <= cy c /\ cy c + ch c - 1 <= ry1 /\ 1 <= ch c))
         (bracket_commits rx0 ry0 rx1 ry1).
Proof.
  intros Hx Hy. unfold bracket_commits, bracket_width, bracket_height, bracket_extent.
  cbv zeta. repeat constructor; cbn [cx cy cw ch]; lia.
Qed.

(** X7.  A highlight is drawn inside the render window: for a tile of at least
    one pixel that meets a window that is not empty, the chunk makes exactly 8
    commits, each of at least one pixel, each inside the window-space rectangle
    of the window; it changes neither the counter nor the reported fractions. *)
Theorem highlight_lies_in_window (win : window) (w : world) (hdr : list byte)
    (rest : list (list byte)) (tile_x tile_y tile_w tile_h : Z) (i : intersection) :
  pipe w = hdr :: rest ->
  unpack_I 4 hdr = Some [tile_x; tile_y; tile_w; tile_h] ->
  intersect win tile_x tile_y tile_w tile_h = Some i ->
  min_x win <= max_x win -> min_y win <= max_y win ->
  1 <= tile_w -> 1 <= tile_h ->
  exists cs : list commit,
    process_tile_highlight_chunk win w = Ok true (add_commits cs (set_pipe rest w)) /\
    length cs = 8%nat /\
    Forall (fun c => 0 <= cx c /\ cx c + cw c <= max_x win - min_x win + 1 /\
                     0 <= cy c /\ cy c + ch c <= max_y win - min_y win + 1 /\
                     1 <= cw c /\ 1 <= ch c) cs /\
    rendered_pixels (add_commits cs (set_pipe rest w)) = rendered_pixels w /\
    progress (add_commits cs (set_pipe rest w)) = progress w.
Proof.
  intros Hp Hu E Hx Hy Hw Hh.
  exists (bracket_commits (x0 win i) (y0 win i) (x1 win i) (y1 win i)).
  split.
  { rewrite (process_tile_highlight_chunk_run win w hdr rest tile_x tile_y tile_w tile_h Hp Hu).
    rewrite E. reflexivity. }
  split; [reflexivity|]. split; [|split; reflexivity].
  destruct (intersect_some _ _ _ _ _ _ E) as (Hin & H0 & H1 & H2 & H3).
  assert (Hb : 0 <= x0 win i /\ x0 win i <= x1 win i /\ x1 win i <= max_x win - min_x win /\
               0 <= y0 win i /\ y0 win i <= y1 win i /\ y1 win i <= max_y win - min_y win)
    by (unfold x0, x1, y0, y1; lia).
  eapply Forall_impl; [|apply bracket_commits_inside; lia].
  cbv beta. intros c. lia.
Qed.

Lemma highlight_lies_in_window_witness :
  exists cs : list commit,
    process_tile_highlight_chunk window_4x4 (quiet (tl whole_header_stream))
    = Ok true (add_commits cs (set_pipe [] (quiet (tl whole_header_stream)))) /\
    length cs = 8%nat /\
    Forall (fun c => 0 <= cx c /\ cx c + cw c <= 4 /\ 0 <= cy c /\ cy c + ch c <= 4 /\
                     1 <= cw c /\ 1 <= ch c) cs.
Proof.
  destruct (highlight_lies_in_window window_4x4 (quiet (tl whole_header_stream))
              (encode_u32s [0; 0; 3; 3]) [] 0 0 3 3 (Intersection 0 0 2 2))
    as (cs & Hrun & Hlen & Hin & _).
  - reflexivity.
  - reflexivity.
  - reflexivity.
  - cbn. lia.
  - cbn. lia.
  - lia.
  - lia.
  - exists cs. split; [exact Hrun|]. split; [exact Hlen | exact Hin].
Defined.

Lemma slice_length {A : Type} (l : list A) (a b : Z) :
  0 <= a -> a <= b -> b <= Z.of_nat (length l) ->
  length (slice l a b) = Z.to_nat (b - a).
Proof.
  intros Ha Hab Hb. unfold slice, slice_index.
  destruct (Z.ltb_spec a 0); [lia|]. destruct (Z.ltb_spec b 0); [lia|].
  rewrite length_firstn, length_skipn. lia.
Qed.

Lemma flat_map_length_const {A B : Type} (f : A -> list B) (n : nat) (l : list A) :
  (forall x, In x l -> length (f x) = n) -> length (flat_map f l) = (length l * n)%nat.
Proof.
  induction l as [|x l IH]; intros H; [reflexivity|].
  cbn [flat_map length]. rewrite length_app, (H x (or_introl eq_refl)), IH; [lia|].
  intros y Hy. apply H. right. exact Hy.
Qed.

(** X8.  The pixels taken from a clipped tile.  The buffer has one pixel per
    pixel of the committed rectangle, [take_x * take_y] of them; destination
    row [r], column [c] is the source pixel of row [skip_y + take_y - 1 - r]
    and column [skip_x + c], read as 4 floats; and when the payload holds
    [tile_w * tile_h] pixels of 4 floats and the rectangle lies in the tile,
    every pixel of the buffer has its 4 floats. *)
Theorem clipped_tile_pixels (floats : list Z) (tile_w tile_h skipx skipy takex takey : Z) :
  Z.of_nat (length floats) = tile_w * tile_h * 4 ->
  0 <= skipx -> skipx + takex <= tile_w ->
  0 <= skipy -> skipy + takey <= tile_h ->
  length (extract_pix floats tile_w skipx skipy takex takey)
  = (Z.to_nat takex * Z.to_nat takey)%nat /\
  extract_pix floats tile_w skipx skipy takex takey
  = flat_map (fun r => map (fun c => source_pixel floats tile_w 4 (skipy + (takey - 1 - r))
                                                  (skipx + c))
                           (zrange 0 takex))
             (zrange 0 takey) /\
  Forall (fun px => length px = 4%nat) (extract_pix floats tile_w skipx skipy takex takey).
Proof.
  intros Hlen Hsx Htx Hsy Hty. split; [|split].
  - unfold extract_pix. rewrite (flat_map_length_const _ (Z.to_nat takex)).
    + unfold zrange_down. rewrite length_rev, zrange_length. lia.
    + intros y _. cbv zeta. rewrite length_map, zrange_length. lia.
  - unfold extract_pix. rewrite zrange_down_map.
    rewrite !flat_map_concat_map, map_map. f_equal. apply map_ext. intros r.
    cbv zeta. rewrite zrange_shift, map_map.
    apply map_ext. intros c. unfold source_pixel. f_equal; lia.
  - unfold extract_pix. apply Forall_forall. intros px Hpx.
    apply in_flat_map in Hpx. destruct Hpx as (y & Hy & Hpx).
    unfold zrange_down in Hy. apply in_rev in Hy. apply zrange_In in Hy.
    cbv zeta in Hpx. apply in_map_iff in Hpx. destruct Hpx as (p & <- & Hp).
    apply zrange_In in Hp.
    rewrite slice_length; [lia | nia | lia | nia].
Qed.

Lemma clipped_tile_pixels_witness :
  length (extract_pix [1; 2; 3; 4; 5; 6; 7; 8] 2 1 0 1 1) = (Z.to_nat 1 * Z.to_nat 1)%nat /\
  extract_pix [1; 2; 3; 4; 5; 6; 7; 8] 2 1 0 1 1
  = flat_map (fun r => map (fun c => source_pixel [1; 2; 3; 4; 5; 6; 7; 8] 2 4
                                                  (0 + (1 - 1 - r)) (1 + c))
                           (zrange 0 1))
             (zrange 0 1) /\
  Forall (fun px => length px = 4%nat) (extract_pix [1; 2; 3; 4; 5; 6; 7; 8] 2 1 0 1 1).
Proof.
  apply (clipped_tile_pixels [1; 2; 3; 4; 5; 6; 7; 8] 2 1 1 0 1 1); cbn; lia.
Defined.

(** * Beyond the claims: edges of the stream *)

(** X9.  An unknown chunk is skipped when its payload is at hand: if [size] is
    0, or the first delivery after the chunk header holds at least [size]
    bytes, the loop goes on at the byte after the payload, with nothing drawn,
    counted or reported. *)
Theorem unknown_chunk_is_skipped (fuel : nat) (win : window) (w : world) (chdr : list byte)
    (p : list (list byte)) (chunk_type chunk_size : Z) :
  no_cancel w ->
  pipe w = chdr :: p ->
  unpack_I 2 chdr = Some [chunk_type; chunk_size] ->
  chunk_type <> 1 -> chunk_type <> 2 ->
  (chunk_size = 0 \/
   exists seg rest, p = seg :: rest /\ chunk_size <= Z.of_nat (length seg)) ->
  exists p' : list (list byte),
    concat p' = skipn (Z.to_nat chunk_size) (concat p) /\
    render_loop (S fuel) win w = render_loop fuel win (set_pipe p' w).
Proof.
  intros Hc Hp Hu H1 H2 Hpay.
  rewrite (render_loop_header fuel win w chdr _ chunk_type chunk_size Hc Hp Hu).
  destruct (Z.eqb_spec chunk_type 1); [contradiction|].
  destruct (Z.eqb_spec chunk_type 2); [contradiction|].
  destruct (unpack_I_some _ _ _ Hu) as (_ & _ & Hr).
  assert (H0 : 0 <= chunk_size).
  { pose proof (Forall_inv (Forall_inv_tail Hr)) as Hs. unfold u32 in Hs. lia. }
  destruct (Z.eq_dec chunk_size 0) as [Hz|Hnz].
  { exists p. subst chunk_size. cbn [Z.to_nat skipn]. split; [reflexivity|].
    unfold bind, os_read. cbn [Z.leb Z.compare]. reflexivity. }
  destruct Hpay as [Hz|(seg & rest & -> & Hseg)]; [contradiction|].
  destruct seg as [|b seg]; [cbn [length] in Hseg; lia|].
  unfold bind, os_read. destruct (Z.leb_spec chunk_size 0); [lia|].
  cbn [pipe set_pipe pipe_read].
  destruct (Z.leb_spec (Z.of_nat (length (b :: seg))) chunk_size) as [Hle|Hgt].
  - exists rest. split; [|reflexivity].
    cbn [concat]. rewrite skipn_app, skipn_all2 by lia.
    replace (Z.to_nat chunk_size - length (b :: seg))%nat with O by lia. reflexivity.
  - exists (skipn (Z.to_nat chunk_size) (b :: seg) :: rest). split; [|reflexivity].
    cbn [concat]. rewrite skipn_app.
    replace (Z.to_nat chunk_size - length (b :: seg))%nat with O by lia. reflexivity.
Qed.

Lemma unknown_chunk_is_skipped_witness :
  exists p' : list (list byte),
    concat p' = encode_u32s [2; 16] ++ encode_u32s [0; 0; 3; 3] /\
    render_loop 4 window_4x4 (quiet unknown_whole_stream)
    = render_loop 3 window_4x4 (set_pipe p' (quiet unknown_whole_stream)).
Proof.
  destruct (unknown_chunk_is_skipped 3 window_4x4 (quiet unknown_whole_stream)
              (encode_u32s [99; 12])
              [encode_u32s [7; 7; 7]; encode_u32s [2; 16]; encode_u32s [0; 0; 3; 3]] 99 12)
    as (p' & Hcat & Hrun).
  - reflexivity.
  - reflexivity.
  - reflexivity.
  - discriminate.
  - discriminate.
  - right. do 2 eexists. split; [reflexivity|]. cbn. lia.
  - exists p'. split; [exact Hcat | exact Hrun].
Defined.

(** X10.  A [total_pixels] of 0 (an empty window, or no pass) makes the render
    raise [ZeroDivisionError] at the first tile that meets the window, after
    the tile was committed and counted; the child is not killed. *)
Theorem zero_total_raises_after_commit (fuel : nat) (win : window) (renderer_passes : Z)
    (w : world) (chdr hdr : list byte) (segs rest : list (list byte))
    (chunk_size tile_x tile_y tile_w tile_h tile_c : Z) (i : intersection) :
  no_cancel w ->
  pipe w = chdr :: hdr :: segs ++ rest ->
  unpack_I 2 chdr = Some [1; chunk_size] ->
  unpack_I 5 hdr = Some [tile_x; tile_y; tile_w; tile_h; tile_c] ->
  Forall (fun s => s <> []) segs ->
  Z.of_nat (length (concat segs)) = tile_w * tile_h * tile_c * 4 ->
  (length segs < fuel)%nat ->
  intersect win tile_x tile_y tile_w tile_h = Some i ->
  (max_x win - min_x win + 1) * (max_y win - min_y win + 1) * renderer_passes = 0 ->
  exists w' : world,
    render_project_file (S fuel) win renderer_passes w = Raise ZeroDivisionError w' /\
    sink w' = sink w ++ [tile_commit win tile_x tile_y tile_w i (floats_of (concat segs))] /\
    rendered_pixels w' = take_x i * take_y i /\
    killed w' = killed w.
Proof.
  intros Hc Hp Hu2 Hu5 Hne Hsz Hf E Hzero.
  unfold render_project_file.
  erewrite bind_ok by reflexivity. rewrite Hzero.
  set (w0 := set_total_pixels 0 (set_rendered_pixels 0 w)).
  assert (Hrun : render_loop (S fuel) win w0
                 = Raise ZeroDivisionError
                     (set_rendered_pixels (0 + take_x i * take_y i)
                        (add_commit (tile_commit win tile_x tile_y tile_w i
                                       (floats_of (concat segs)))
                           (set_pipe rest w0)))).
  { rewrite (render_loop_header fuel win w0 chdr _ 1 chunk_size Hc Hp Hu2).
    cbn [Z.eqb Pos.eqb]. unfold bind at 1.
    rewrite (process_tile_data_chunk_run fuel win _ hdr segs rest
               tile_x tile_y tile_w tile_h tile_c); auto.
    unfold tile_outcome. rewrite E. reflexivity. }
  unfold bind at 1. rewrite Hrun.
  eexists. split; [reflexivity|]. cbn. repeat split.
Qed.

Lemma zero_total_raises_after_commit_witness :
  exists w' : world,
    render_project_file 3 window_4x4 0 (quiet four_channel_stream)
    = Raise ZeroDivisionError w' /\
    sink w' = [tile_commit window_4x4 0 0 1 (Intersection 0 0 0 1)
                 [f10; f10; f10; f10; f20; f20; f20; f20]] /\
    rendered_pixels w' = 2 /\ killed w' = false.
Proof.
  apply (zero_total_raises_after_commit 2 window_4x4 0 (quiet four_channel_stream)
           (encode_u32s [1; 52]) (encode_u32s [0; 0; 1; 2; 4])
           [encode_u32s [f10; f10; f10; f10; f20; f20; f20; f20]] [] 52 0 0 1 2 4
           (Intersection 0 0 0 1)).
  - reflexivity.
  - reflexivity.
  - reflexivity.
  - reflexivity.
  - repeat constructor. discriminate.
  - reflexivity.
  - cbn. lia.
  - reflexivity.
  - reflexivity.
Defined.

(** X11.  The stream ends, or delivers too few bytes, where the header of a
    tile is due: the short buffer goes to [struct.unpack], which raises.  The
    clean end of stream is the one before a chunk header only. *)
Theorem truncated_tile_header_raises (fuel : nat) (win : window) (w : world)
    (chdr : list byte) (p : list (list byte)) (chunk_type chunk_size : Z) :
  no_cancel w ->
  pipe w = chdr :: p ->
  unpack_I 2 chdr = Some [chunk_type; chunk_size] ->
  chunk_type = 1 \/ chunk_type = 2 ->
  (p = [] \/
   exists seg rest, p = seg :: rest /\ seg <> [] /\
                    Z.of_nat (length seg) < (if chunk_type =? 1 then 20 else 16)) ->
  render_loop (S fuel) win w = Raise StructError (set_pipe (tl p) w).
Proof.
  intros Hc Hp Hu Htype Hshort.
  rewrite (render_loop_header fuel win w chdr _ chunk_type chunk_size Hc Hp Hu).
  assert (Hread : forall n, (n = 20 \/ n = 16) ->
            (p = [] \/ exists seg rest, p = seg :: rest /\ seg <> [] /\
                                        Z.of_nat (length seg) < n) ->
            exists data, os_read n (set_pipe p w) = Ok data (set_pipe (tl p) w) /\
                         Z.of_nat (length data) < n).
  { intros n Hn [->|(seg & rest & -> & Hne & Hlen)].
    - exists []. split; [|cbn [length]; lia]. apply os_read_eof. reflexivity.
    - exists seg. split; [|exact Hlen].
      rewrite (os_read_whole n seg rest (set_pipe (seg :: rest) w)); [reflexivity| | |];
        [reflexivity | exact Hne | lia]. }
  destruct Htype as [-> | ->]; cbn [Z.eqb Pos.eqb] in *.
  - destruct (Hread 20 (or_introl eq_refl) Hshort) as (data & Hd & Hlen).
    unfold bind at 1, process_tile_data_chunk. change (5 * 4) with 20.
    rewrite (bind_ok _ _ _ _ _ Hd). unfold struct_unpack.
    rewrite unpack_I_short by lia. reflexivity.
  - destruct (Hread 16 (or_intror eq_refl) Hshort) as (data & Hd & Hlen).
    unfold bind at 1, process_tile_highlight_chunk. change (4 * 4) with 16.
    rewrite (bind_ok _ _ _ _ _ Hd). unfold struct_unpack.
    rewrite unpack_I_short by lia. reflexivity.
Qed.

Lemma truncated_tile_header_raises_witness :
  render_loop 2 window_4x4 (quiet [encode_u32s [2; 16]])
  = Raise StructError (set_pipe [] (quiet [encode_u32s [2; 16]])).
Proof.
  apply (truncated_tile_header_raises 1 window_4x4 (quiet [encode_u32s [2; 16]])
           (encode_u32s [2; 16]) [] 2 16).
  - reflexivity.
  - reflexivity.
  - reflexivity.
  - right. reflexivity.
  - left. reflexivity.
Defined.

(** * Beyond the claims: the reported progress *)

Lemma silent_up_to_date (w w' : world) : silent w w' -> up_to_date w -> up_to_date w'.
Proof.
  intros (_ & Hp & Hr & Ht & _). unfold up_to_date. rewrite Hp, Hr, Ht. auto.
Qed.

Lemma test_break_silent (w : world) :
  exists b w', test_break w = Ok b w' /\ silent w w'.
Proof.
  unfold test_break. destruct (ask (brk w)) as [b o].
  exists b, (set_brk o w). split; [reflexivity | unfold silent; cbn; auto].
Qed.

Lemma read_tile_data_silent : forall (fuel : nat) (tile_size : Z) (tile_data : list byte)
    (w : world),
  post (read_tile_data fuel tile_size tile_data w) (fun _ w' => silent w w')
       (fun _ _ => False) True.
Proof.
  induction fuel as [|fuel IH]; intros tile_size tile_data w; [exact I|].
  cbn [read_tile_data].
  destruct (Z.of_nat (length tile_data) <? tile_size); [|apply silent_refl].
  destruct (test_break_silent w) as (b & w1 & Hb & Hs1).
  rewrite (bind_ok _ _ _ _ _ Hb). destruct b; [exact Hs1|].
  destruct (os_read_silent (tile_size - Z.of_nat (length tile_data)) w1)
    as (d & w2 & Hd & Hs2 & _).
  rewrite (bind_ok _ _ _ _ _ Hd).
  specialize (IH tile_size (tile_data ++ d) w2).
  destruct (read_tile_data fuel tile_size (tile_data ++ d) w2); cbn [post] in *;
    [exact (silent_trans _ _ _ Hs1 (silent_trans _ _ _ Hs2 IH)) | exact IH | exact I].
Qed.

Lemma process_tile_data_chunk_up_to_date (fuel : nat) (win : window) (w : world) :
  up_to_date w ->
  post (process_tile_data_chunk fuel win w) (fun _ w' => up_to_date w')
       (fun e w' => e = ZeroDivisionError \/ up_to_date w') True.
Proof.
  intros Hup. unfold process_tile_data_chunk.
  destruct (os_read_silent (5 * 4) w) as (hdr & w1 & Hhdr & Hs1 & _).
  rewrite (bind_ok _ _ _ _ _ Hhdr).
  pose proof (silent_up_to_date _ _ Hs1 Hup) as Hup1.
  unfold struct_unpack. destruct (unpack_I 5 hdr) as [th|]; cbn [lift_option].
  2:{ cbn. right. exact Hup1. }
  rewrite (bind_ok _ _ _ w1 th) by reflexivity.
  pose proof (read_tile_data_silent fuel
                (item th 2 * item th 3 * item th 4 * 4) [] w1) as Hread.
  unfold bind at 1.
  destruct (read_tile_data fuel (item th 2 * item th 3 * item th 4 * 4) [] w1)
    as [data w2| |]; cbn [post] in Hread |- *; [|contradiction|exact I].
  destruct (test_break_silent w2) as (b & w3 & Hb & Hs3).
  rewrite (bind_ok _ _ _ _ _ Hb).
  pose proof (silent_up_to_date _ _ (silent_trans _ _ _ Hread Hs3) Hup1) as Hup3.
  destruct b; [exact Hup3|].
  destruct (intersect win (item th 0) (item th 1) (item th 2) (item th 3)) as [i|];
    [|exact Hup3].
  unfold array_fromstring. destruct (fromstring data) as [floats|]; cbn [lift_option].
  2:{ cbn. right. exact Hup3. }
  unfold bind, ret, emit, add_rendered_pixels, update_progress.
  cbn [total_pixels set_rendered_pixels add_commit].
  destruct (total_pixels w3 =? 0); cbn [post]; [left; reflexivity|].
  right. cbn. eexists. reflexivity.
Qed.

Lemma process_tile_highlight_chunk_up_to_date (win : window) (w : world) :
  up_to_date w ->
  post (process_tile_highlight_chunk win w) (fun _ w' => up_to_date w')
       (fun _ w' => up_to_date w') False.
Proof.
  intros Hup. unfold process_tile_highlight_chunk.
  destruct (os_read_silent (4 * 4) w) as (hdr & w1 & Hhdr & Hs1 & _).
  rewrite (bind_ok _ _ _ _ _ Hhdr).
  pose proof (silent_up_to_date _ _ Hs1 Hup) as Hup1.
  unfold struct_unpack. destruct (unpack_I 4 hdr) as [th|]; cbn [lift_option].
  2:{ cbn. exact Hup1. }
  rewrite (bind_ok _ _ _ w1 th) by reflexivity.
  destruct (intersect win (item th 0) (item th 1) (item th 2) (item th 3)) as [i|];
    [|exact Hup1].
  erewrite bind_ok by apply draw_brackets_run. cbn [ret post]. exact Hup1.
Qed.

Lemma render_loop_up_to_date (win : window) : forall (fuel : nat) (w : world),
  up_to_date w ->
  post (render_loop fuel win w) (fun _ w' => up_to_date w')
       (fun e w' => e = ZeroDivisionError \/ up_to_date w') True.
Proof.
  induction fuel as [|fuel IH]; intros w Hup; [exact I|].
  cbn [render_loop].
  destruct (test_break_silent w) as (b & w1 & Hb & Hs1).
  rewrite (bind_ok _ _ _ _ _ Hb).
  pose proof (silent_up_to_date _ _ Hs1 Hup) as Hup1.
  destruct b; [exact Hup1|].
  destruct (os_read_silent (2 * 4) w1) as (chdr & w2 & Hchdr & Hs2 & _).
  rewrite (bind_ok _ _ _ _ _ Hchdr).
  pose proof (silent_up_to_date _ _ Hs2 Hup1) as Hup2.
  destruct chdr as [|c0 chdr]; [exact Hup2|].
  unfold struct_unpack.
  destruct (unpack_I 2 (c0 :: chdr)) as [ch|]; cbn [lift_option]; [|right; exact Hup2].
  rewrite (bind_ok _ _ _ w2 ch) by reflexivity.
  destruct (item ch 0 =? 1).
  - pose proof (process_tile_data_chunk_up_to_date fuel win w2 Hup2) as Hchunk.
    unfold bind at 1.
    destruct (process_tile_data_chunk fuel win w2) as [continue w3|e w3|];
      cbn [post] in Hchunk |- *; [|exact Hchunk|exact I].
    destruct continue; [apply IH; exact Hchunk | exact Hchunk].
  - destruct (item ch 0 =? 2).
    + pose proof (process_tile_highlight_chunk_up_to_date win w2 Hup2) as Hchunk.
      unfold bind at 1.
      destruct (process_tile_highlight_chunk win w2) as [continue w3|e w3|];
        cbn [post] in Hchunk |- *; [|right; exact Hchunk|contradiction].
      destruct continue; [apply IH; exact Hchunk | exact Hchunk].
    + destruct (os_read_silent (item ch 1) w2) as (d & w3 & Hd & Hs3 & _).
      rewrite (bind_ok _ _ _ _ _ Hd). apply IH. exact (silent_up_to_date _ _ Hs3 Hup2).
Qed.

(** X12.  The progress bar is current: in a render that starts with no report
    made, whenever it returns (or raises anything but the division by a zero
    total) nothing was counted and reported, or the last fraction reported is
    [rendered_pixels / total_pixels] as they stand. *)
Theorem last_report_is_current (fuel : nat) (win : window) (renderer_passes : Z) (w : world) :
  progress w = [] ->
  post (render_project_file fuel win renderer_passes w)
       (fun _ w' => up_to_date w')
       (fun e w' => e = ZeroDivisionError \/ up_to_date w')
       True.
Proof.
  intros Hp. unfold render_project_file.
  erewrite bind_ok by reflexivity.
  set (w0 := set_total_pixels _ _).
  assert (Hup0 : up_to_date w0) by (left; split; [exact Hp | reflexivity]).
  pose proof (render_loop_up_to_date win fuel w0 Hup0) as Hpost.
  unfold bind. destruct (render_loop fuel win w0) as [[] w1|e w1|]; cbn [post] in Hpost |- *.
  - exact Hpost.
  - exact Hpost.
  - exact I.
Qed.

Lemma last_report_is_current_witness :
  exists w' : world,
    render_project_file 8 window_4x4 1 (quiet (stream_of two_tiles)) = Ok tt w' /\
    up_to_date w'.
Proof.
  pose proof (last_report_is_current 8 window_4x4 1 (quiet (stream_of two_tiles)) eq_refl) as H.
  destruct (render_project_file 8 window_4x4 1 (quiet (stream_of two_tiles)))
    as [[] w'|e w'|] eqn:E.
  - exists w'. split; [reflexivity | exact H].
  - vm_compute in E. discriminate.
  - vm_compute in E. discriminate.
Defined.

(** Tiles that cover the window have at least its area. *)
Lemma sum_areas_cover (win : window) (ts : list tile_chunk) :
  min_x win <= max_x win -> min_y win <= max_y win ->
  Forall well_formed ts -> covering win ts ->
  (max_x win - min_x win + 1) * (max_y win - min_y win + 1) <= sum_areas ts.
Proof.
  intros Hx Hy Hwf Hcov.
  rewrite <- (sum_areas_pixels ts Hwf).
  rewrite <- (rect_pixels_length (min_x win) (min_y win)) by lia.
  apply Nat2Z.inj_le. apply NoDup_incl_length; [apply rect_pixels_NoDup|].
  intros [x y] Hmem. apply rect_pixels_In in Hmem.
  destruct (Hcov x y ltac:(lia) ltac:(lia)) as (t & Ht & Hc).
  apply in_flat_map. exists t. split; [exact Ht | apply tile_pixels_covers; exact Hc].
Qed.

(** X13.  A complete pass ends at 1: when the tiles of the stream lie inside
    the render window, do not overlap and cover it, and the render has one
    pass, the render returns with [rendered_pixels] equal to [total_pixels]
    and the last fraction it reported is 1. *)
Theorem complete_pass_reports_one (fuel : nat) (win : window) (ts : list tile_chunk) :
  min_x win <= max_x win -> min_y win <= max_y win ->
  Forall well_formed ts -> Forall (inside win) ts -> non_overlapping ts ->
  covering win ts ->
  (length (stream_of ts) < fuel)%nat ->
  exists (w' : world) (qs : list Q) (q : Q),
    render_project_file fuel win 1 (quiet (stream_of ts)) = Ok tt w' /\
    rendered_pixels w' = total_pixels w' /\
    progress w' = qs ++ [q] /\ (q == 1)%Q.
Proof.
  intros Hx Hy Hwf Hin Hno Hcov Hf.
  pose proof (sum_areas_bound win ts Hx Hy Hwf Hin Hno) as Hle.
  pose proof (sum_areas_cover win ts Hx Hy Hwf Hcov) as Hge.
  set (total := (max_x win - min_x win + 1) * (max_y win - min_y win + 1)) in *.
  assert (Hpos : 1 <= total) by (subst total; nia).
  set (w0 := set_total_pixels (total * 1) (set_rendered_pixels 0 (quiet (stream_of ts)))).
  destruct (render_loop_tiles win ts fuel w0)
    as (cs & rs & Hrun & _);
    [ reflexivity | reflexivity | cbn [total_pixels set_total_pixels w0]; lia
    | exact Hwf | exact Hin | exact Hf |].
  assert (Hup0 : up_to_date w0) by (left; split; reflexivity).
  pose proof (render_loop_up_to_date win fuel w0 Hup0) as Hup.
  rewrite Hrun in Hup. cbn [post] in Hup.
  cbn [brk rendered_pixels total_pixels sink progress killed set_total_pixels
       set_rendered_pixels quiet app w0] in Hrun, Hup.
  destruct Hup as [(_ & Hr0)|(qs & Hq)]; cbn [rendered_pixels] in *; [lia|].
  cbn [progress total_pixels rendered_pixels] in Hq.
  eexists. exists qs. eexists. split.
  - unfold render_project_file.
    erewrite bind_ok by reflexivity.
    erewrite bind_ok by exact Hrun. reflexivity.
  - cbn [total_pixels rendered_pixels progress killed set_killed].
    split; [lia|]. split; [exact Hq|].
    replace (0 + sum_areas ts) with (total * 1) by lia.
    unfold fraction. apply Qmult_inv_r.
    change 0%Q with (inject_Z 0). rewrite inject_Z_injective. lia.
Qed.

Lemma complete_pass_reports_one_witness :
  exists (w' : world) (qs : list Q) (q : Q),
    render_project_file 13 window_4x4 1 (quiet (stream_of four_tiles)) = Ok tt w' /\
    rendered_pixels w' = total_pixels w' /\
    progress w' = qs ++ [q] /\ (q == 1)%Q.
Proof.
  apply (complete_pass_reports_one 13 window_4x4 four_tiles).
  - cbn. lia.
  - cbn. lia.
  - repeat constructor; try (unfold u32; cbn; lia); try discriminate.
  - repeat constructor; cbn; lia.
  - cbn. repeat split; repeat constructor;
      intros (x & y & (Hx1 & Hy1) & (Hx2 & Hy2)); cbn in *; lia.
  - intros x y Hx Hy. cbn in Hx, Hy.
    destruct (Z_lt_le_dec x 2), (Z_lt_le_dec y 2).
    + exists (TileChunk 84 0 0 2 2 4 [zeros 16]). split; [cbn; auto|].
      unfold covers. cbn. lia.
    + exists (TileChunk 84 0 2 2 2 4 [zeros 16]). split; [cbn; auto|].
      unfold covers. cbn. lia.
    + exists (TileChunk 84 2 0 2 2 4 [zeros 16]). split; [cbn; auto|].
      unfold covers. cbn. lia.
    + exists (TileChunk 84 2 2 2 2 4 [zeros 16]). split; [cbn; auto|].
      unfold covers. cbn. lia.
  - cbn. lia.
Defined.

(** * Beyond the claims: the material of the preview *)

Section PreviewFacts.

Variable material : Type.

Lemma pykey_eqb_refl (o : scene_object material) : pykey_eqb (KeyObject o) (KeyObject o) = true.
Proof. cbn. apply Nat.eqb_refl. Qed.

Lemma dict_get_set_same (k : pykey material) (v : list material) : forall d,
  pykey_eqb k k = true -> dict_get k (dict_set k v d) = Some v.
Proof.
  intros d Hk. induction d as [|[k' v'] d IH]; cbn [dict_set dict_get].
  - now rewrite Hk.
  - destruct (pykey_eqb k k') eqn:E; cbn [dict_get]; rewrite E; [reflexivity | exact IH].
Qed.

Lemma dict_set_set (k : pykey material) (v v' : list material) : forall d,
  pykey_eqb k k = true -> dict_set k v' (dict_set k v d) = dict_set k v' d.
Proof.
  intros d Hk. induction d as [|[k0 v0] d IH]; cbn [dict_set].
  - now rewrite Hk.
  - destruct (pykey_eqb k k0) eqn:E; cbn [dict_set]; rewrite E; [reflexivity | now rewrite IH].
Qed.

Lemma dict_set_fresh (k : pykey material) (v : list material) : forall d,
  Forall (fun kv => pykey_eqb k (fst kv) = false) d -> dict_set k v d = d ++ [(k, v)].
Proof.
  induction d as [|[k0 v0] d IH]; intros H; [reflexivity|].
  cbn [dict_set app]. pose proof (Forall_inv H) as E. cbn [fst] in E. rewrite E.
  rewrite IH by exact (Forall_inv_tail H). reflexivity.
Qed.

Lemma dict_contains_name (s : string) (d : pydict material) :
  objects_only d -> dict_contains (KeyStr s) d = false.
Proof.
  unfold dict_contains. induction 1 as [|[k v] d (o & Ho) _ IH]; [reflexivity|].
  cbn [map existsb fst] in *. rewrite Ho. cbn [pykey_eqb orb]. exact IH.
Qed.

Lemma objects_only_set (o : scene_object material) (v : list material) (d : pydict material) :
  objects_only d -> objects_only (dict_set (KeyObject o) v d).
Proof.
  unfold objects_only. induction 1 as [|[k v0] d Hk Hd IH]; cbn [dict_set].
  - repeat constructor. exists o. reflexivity.
  - destruct (pykey_eqb (KeyObject o) k); constructor; try assumption; exact Hk.
Qed.

(** Lines 104-107 on one object: each material resets the list. *)
Lemma record_materials_last (obj : scene_object material) : forall (mats : list (option material))
    (d : pydict material),
  objects_only d ->
  record_materials obj d mats
  = inl (match last_material mats with
         | Some m => dict_set (KeyObject obj) [m] d
         | None => d
         end).
Proof.
  induction mats as [|mat mats IH]; intros d Hd; [reflexivity|].
  cbn [record_materials last_material]. destruct mat as [m0|]; cbn [record_material].
  - rewrite dict_contains_name by exact Hd. cbn [negb].
    rewrite dict_get_set_same by apply pykey_eqb_refl. cbn [app].
    rewrite dict_set_set by apply pykey_eqb_refl.
    rewrite IH by (apply objects_only_set; exact Hd).
    destruct (last_material mats); [|reflexivity].
    rewrite dict_set_set by apply pykey_eqb_refl. reflexivity.
  - rewrite IH by exact Hd. destruct (last_material mats); reflexivity.
Qed.

Lemma entries_objects_only (objects : list (scene_object material)) : objects_only (entries objects).
Proof.
  unfold objects_only, entries. apply Forall_forall. intros kv Hin.
  apply in_flat_map in Hin. destruct Hin as (o & _ & Hin).
  destruct (shown o); [|contradiction].
  destruct (last_material (ob_instance_materials o)); [|contradiction].
  destruct Hin as [<-|[]]. exists o. reflexivity.
Qed.

Lemma entries_keys (objects : list (scene_object material)) (kv : pykey material * list material) :
  In kv (entries objects) ->
  exists o m, In o objects /\ kv = (KeyObject o, [m]) /\ shown o = true /\
              last_material (ob_instance_materials o) = Some m.
Proof.
  unfold entries. intros Hin. apply in_flat_map in Hin. destruct Hin as (o & Ho & Hin).
  destruct (shown o) eqn:Es; [|contradiction].
  destruct (last_material (ob_instance_materials o)) as [m|] eqn:El; [|contradiction].
  destruct Hin as [<-|[]]. exists o, m. auto.
Qed.

Lemma entries_cons (obj : scene_object material) (objects : list (scene_object material)) :
  entries (obj :: objects)
  = (if shown obj then
       match last_material (ob_instance_materials obj) with
       | Some m => [(KeyObject obj, [m])]
       | None => []
       end
     else []) ++ entries objects.
Proof. reflexivity. Qed.

(** Lines 101-107 on objects of distinct identity, none of them in the
    dictionary yet. *)
Lemma collect_materials_entries : forall (objects : list (scene_object material)) (d : pydict material),
  objects_only d ->
  NoDup (map ob_id objects) ->
  (forall o, In o objects -> Forall (fun kv => pykey_eqb (KeyObject o) (fst kv) = false) d) ->
  collect_materials objects d = inl (d ++ entries objects).
Proof.
  induction objects as [|obj objects IH]; intros d Hd Hnd Hfresh.
  - cbn. now rewrite app_nil_r.
  - cbn [collect_materials]. rewrite entries_cons.
    change (ob_is_visible obj && negb (ob_hide_render obj)) with (shown obj).
    cbn [map] in Hnd. pose proof (NoDup_cons_iff (ob_id obj) (map ob_id objects)) as Hc.
    apply Hc in Hnd. destruct Hnd as (Hnotin & Hnd).
    assert (Htail : forall o, In o objects ->
              Forall (fun kv => pykey_eqb (KeyObject o) (fst kv) = false) d).
    { intros o Ho. apply Hfresh. right. exact Ho. }
    destruct (shown obj); [|cbn [app]; apply IH; assumption].
    rewrite record_materials_last by exact Hd.
    destruct (last_material (ob_instance_materials obj)) as [m|];
      [|cbn [app]; apply IH; assumption].
    rewrite dict_set_fresh by (apply Hfresh; left; reflexivity).
    rewrite IH; [now rewrite <- app_assoc | | exact Hnd |].
    + unfold objects_only in *. apply Forall_app. split; [exact Hd|].
      repeat constructor. exists obj. reflexivity.
    + intros o Ho. apply Forall_app. split; [apply Htail; exact Ho|].
      repeat constructor. cbn [fst pykey_eqb]. apply Nat.eqb_neq. intros Heq.
      apply Hnotin. rewrite <- Heq. apply in_map. exact Ho.
Qed.

(** Line 110 on that dictionary: the candidates, in the order of the scene. *)
Lemma preview_objects_entries (objects : list (scene_object material)) :
  preview_objects (map fst (entries objects))
  = inl (map KeyObject (filter candidate objects)).
Proof.
  induction objects as [|obj objects IH]; [reflexivity|].
  rewrite entries_cons, map_app. cbn [filter]. unfold candidate at 1.
  destruct (shown obj); cbn [andb map app]; [|exact IH].
  destruct (last_material (ob_instance_materials obj)) as [m|]; cbn [map app fst].
  - cbn [preview_objects]. rewrite IH.
    destruct (prefix "preview" (ob_name obj)); reflexivity.
  - rewrite andb_false_r. exact IH.
Qed.

Lemma dict_get_entries : forall (objects : list (scene_object material)) (o : scene_object material),
  NoDup (map ob_id objects) -> In o objects -> candidate o = true ->
  exists m, last_material (ob_instance_materials o) = Some m /\
            dict_get (KeyObject o) (entries objects) = Some [m].
Proof.
  induction objects as [|obj objects IH]; intros o Hnd Hin Hcand; [contradiction|].
  cbn [map] in Hnd. pose proof (NoDup_cons_iff (ob_id obj) (map ob_id objects)) as Hc.
  apply Hc in Hnd. destruct Hnd as (Hnotin & Hnd).
  rewrite entries_cons. destruct Hin as [->|Hin].
  - unfold candidate in Hcand. destruct (shown o); [|discriminate].
    destruct (last_material (ob_instance_materials o)) as [m|];
      [|rewrite andb_false_r in Hcand; discriminate].
    exists m. split; [reflexivity|]. cbn [app dict_get]. now rewrite pykey_eqb_refl.
  - destruct (IH o Hnd Hin Hcand) as (m & Hm & Hget). exists m. split; [exact Hm|].
    destruct (shown obj); [|exact Hget].
    destruct (last_material (ob_instance_materials obj)); [|exact Hget].
    cbn [app dict_get pykey_eqb].
    replace (Nat.eqb (ob_id o) (ob_id obj)) with false; [exact Hget|].
    symmetry. apply Nat.eqb_neq. intros Heq. apply Hnotin. rewrite <- Heq.
    apply in_map. exact Hin.
Qed.

(** X14.  The material the preview renders.  For a scene of objects of
    distinct identity the lines raise no exception; they return early for a
    thumbnail ([width <= 96]) or when no shown object named [preview...] has a
    material; otherwise they choose the LAST material of such an object, the
    list kept for an object being emptied at each of its materials.  The
    dictionary is taken in insertion order; the statement does not say which
    of several such objects is chosen. *)
Theorem preview_renders_last_material (width : Z) (objects : list (scene_object material)) :
  NoDup (map ob_id objects) ->
  (forall e, select_preview_material width objects <> Failed e) /\
  (width <= 96 -> select_preview_material width objects = Returned) /\
  (96 < width ->
   (select_preview_material width objects = Returned <->
    forall o, In o objects -> candidate o = false)) /\
  (forall prev_mat,
     select_preview_material width objects = Selected prev_mat ->
     96 < width /\
     exists o, In o objects /\ candidate o = true /\
               last_material (ob_instance_materials o) = Some prev_mat).
Proof.
  intros Hnd.
  assert (Hsel : select_preview_material width objects
                 = if width <=? 96 then Returned
                   else match filter candidate objects with
                        | [] => Returned
                        | o :: _ =>
                            match last_material (ob_instance_materials o) with
                            | Some m => Selected m
                            | None => Returned
                            end
                        end).
  { unfold select_preview_material. destruct (width <=? 96); [reflexivity|].
    rewrite (collect_materials_entries objects []); [|constructor|exact Hnd|constructor].
    cbn [app]. rewrite preview_objects_entries.
    destruct (filter candidate objects) as [|o l] eqn:Ef; [reflexivity|].
    cbn [map].
    assert (Ho : In o objects /\ candidate o = true).
    { apply filter_In. rewrite Ef. left. reflexivity. }
    destruct (dict_get_entries objects o Hnd (proj1 Ho) (proj2 Ho)) as (m & Hm & Hget).
    rewrite Hget, Hm. reflexivity. }
  rewrite Hsel. clear Hsel.
  assert (Hfirst : forall o l, filter candidate objects = o :: l ->
            In o objects /\ candidate o = true /\
            exists m, last_material (ob_instance_materials o) = Some m).
  { intros o l Ef.
    assert (Ho : In o objects /\ candidate o = true).
    { apply filter_In. rewrite Ef. left. reflexivity. }
    destruct (dict_get_entries objects o Hnd (proj1 Ho) (proj2 Ho)) as (m & Hm & _).
    destruct Ho. eauto. }
  destruct (Z.leb_spec width 96) as [Hw|Hw].
  - repeat split; try discriminate; try lia.
  - split; [|split; [lia|split]].
    + intros e. destruct (filter candidate objects) as [|o l]; [discriminate|].
      destruct (last_material (ob_instance_materials o)); discriminate.
    + intros _. destruct (filter candidate objects) as [|o l] eqn:Ef.
      * split; [|reflexivity]. intros _ o Ho.
        destruct (candidate o) eqn:Ec; [|reflexivity].
        assert (Hin : In o (filter candidate objects)) by (apply filter_In; auto).
        rewrite Ef in Hin. contradiction.
      * destruct (Hfirst o l eq_refl) as (Ho & Hc & m & Hm). rewrite Hm.
        split; [discriminate|]. intros Hall. rewrite (Hall o Ho) in Hc. discriminate.
    + intros prev_mat. destruct (filter candidate objects) as [|o l] eqn:Ef; [discriminate|].
      destruct (Hfirst o l eq_refl) as (Ho & Hc & m & Hm). rewrite Hm.
      intros Heq. injection Heq as <-. split; [lia|]. exists o. auto.
Qed.

End PreviewFacts.

Lemma preview_renders_last_material_witness :
  select_preview_material 128 preview_scene = Selected 2%nat /\
  exists o, In o preview_scene /\ candidate o = true /\
            last_material (ob_instance_materials o) = Some 2%nat.
Proof.
  split; [reflexivity|].
  destruct (preview_renders_last_material nat 128 preview_scene) as (_ & _ & _ & Hsel).
  - repeat constructor; cbn; intuition discriminate.
  - apply (Hsel 2%nat). reflexivity.
Defined.
